(** * The [namespace] rule of eslint-plugin-import

    A shallow embedding of [src/rules/namespace.js] and the properties of
    its visitors: the construction of the table of namespace bindings from
    the import declarations of a file, the walk along a chain of member
    accesses, the walk through an object destructuring pattern, and the
    check of a JSX member tag. *)

From stdpp Require Import base strings gmap list.

Local Open Scope string_scope.
Local Open Scope list_scope.

(** ** Syntax trees *)

(** The ESTree nodes the rule looks at.  A field the rule reads is a field
    of the constructor, under the name ESTree gives it. *)
Module ESTree.

#[local] Unset Elimination Schemes.

(** The [imported] field of an import specifier: an identifier, or a
    string literal in [import { 'a b' as c }]. *)
Inductive ModuleExportName : Type :=
| ExportIdentifier (name : string)
| ExportLiteral (value : string).

(** The [property] of a member expression together with its [computed]
    flag: ESTree has an identifier there when [computed] is false
    ([Static], the node being [Identifier name]) and any expression when
    it is true ([Computed]). *)
Inductive MemberProperty : Type :=
| Static (name : string)
| Computed (expression : Node)

with Node : Type :=
| Identifier (name : string)
| Literal (value : string)
| MemberExpression (object : Node) (property : MemberProperty)
| AssignmentExpression (left right : Node)
| CallExpression (callee : Node) (arguments : list Node)
| ObjectPattern (properties : list Node)
| ArrayPattern (elements : list Node)
| AssignmentPattern (left right : Node)
| Property (key value : Node)
| RestElement (argument : Node)
| ExperimentalRestProperty (argument : Node)
| ImportNamespaceSpecifier (local : string)
| ImportDefaultSpecifier (local : string)
| ImportSpecifier (imported : ModuleExportName) (local : string)
| ImportDeclaration (specifiers : list Node) (source : string)
| ExpressionStatement (expression : Node)
| JSXIdentifier (name : string)
| JSXMemberExpression (object : Node) (property : string).

#[local] Set Elimination Schemes.

(** [node.name]: a string on the nodes that carry one, [undefined]
    ([None]) on the others. *)
Definition name (n : Node) : option string :=
  match n with
  | Identifier x | JSXIdentifier x => Some x
  | _ => None
  end.

(** What a template literal prints for [${node.name}]. *)
Definition nameText (n : Node) : string :=
  default "undefined" (name n).

(** The [parent] link of an expression, seen from the child: which node
    the parent is and which of its fields holds the child. *)
Inductive Parent : Type :=
| ObjectOf (property : MemberProperty)
    (* parent is the member expression [child.property] or [child[property]] *)
| ComputedPropertyOf (object : Node)
    (* parent is the member expression [object[child]] *)
| LeftOf (right : Node)
    (* parent is the assignment [child = right] *)
| RightOf (left : Node)
    (* parent is the assignment [left = child] *)
| CalleeOf (arguments : list Node)
    (* parent is the call [child(arguments)] *)
| ExpressionOf.
    (* parent is the expression statement [child;] *)

(** The parent node itself. *)
Definition parentNode (p : Parent) (child : Node) : Node :=
  match p with
  | ObjectOf property => MemberExpression child property
  | ComputedPropertyOf object => MemberExpression object (Computed child)
  | LeftOf rhs => AssignmentExpression child rhs
  | RightOf lhs => AssignmentExpression lhs child
  | CalleeOf arguments => CallExpression child arguments
  | ExpressionOf => ExpressionStatement child
  end.

(** [parent.type === 'AssignmentExpression' && parent.left === child]:
    the comparison is on identity, so it holds when the child sits in the
    [left] field. *)
Definition isAssignmentTarget (p : Parent) : bool :=
  match p with
  | LeftOf _ => true
  | _ => false
  end.

End ESTree.

Import ESTree.

(** A call of [context.report]: the node it is attached to and the text. *)
Record Diagnostic : Type := Report { node : Node; message : string }.

(** ** The export map, as the rule consumes it *)

(** [ExportMap] lives outside the rule; the rule reads [size], [errors],
    [has], [get] and hands the declaration to [reportErrors].  [has] and
    [get] are separate methods and are kept separate here: a name can be
    present while [get] answers [null]. *)
Inductive ExportMap : Type :=
| Exports (size : nat) (errors : list string) (has : string -> bool)
    (get : string -> Exported) (reportErrors : Node -> list Diagnostic)

(** What [get] answers: [undefined], [null], or the metadata of the export,
    whose [namespace] field is an export map or is missing. *)
with Exported : Type :=
| undefined
| null
| Meta (namespace : option ExportMap).

Definition size (m : ExportMap) : nat :=
  let '(Exports size _ _ _ _) := m in size.

Definition errors (m : ExportMap) : list string :=
  let '(Exports _ errors _ _ _) := m in errors.

Definition has (m : ExportMap) : string -> bool :=
  let '(Exports _ _ has _ _) := m in has.

Definition get (m : ExportMap) : string -> Exported :=
  let '(Exports _ _ _ get _) := m in get.

Definition reportErrors (m : ExportMap) : Node -> list Diagnostic :=
  let '(Exports _ _ _ _ reportErrors) := m in reportErrors.

(** ** The rule *)

Module namespaceRule.

Section imports.

(** [Exports.get(source, context)]: the export map of a module, [None]
    when it answers [null] or [undefined]. *)
Variable Exports_get : string -> option ExportMap.

(** The name an import specifier looks up,
    [imported.name || imported.value]; the name of an identifier is
    never empty. *)
Definition importedName (imported : ModuleExportName) : string :=
  match imported with
  | ExportIdentifier x => x
  | ExportLiteral v => v
  end.

(** The callback of [declaration.specifiers.forEach]. *)
Definition processSpecifier (imports : ExportMap) (source : string)
    (namespaces : gmap string ExportMap) (specifier : Node)
  : gmap string ExportMap * list Diagnostic :=
  match specifier with
  | ImportNamespaceSpecifier local =>
      (<[local := imports]> namespaces,
       if Nat.eqb (size imports) 0
       then [Report specifier ("No exported names found in module '" +:+ source +:+ "'.")]
       else [])
  | ImportDefaultSpecifier local =>
      match get imports "default" with
      | Meta (Some namespace) => (<[local := namespace]> namespaces, [])
      | _ => (namespaces, [])
      end
  | ImportSpecifier imported local =>
      match get imports (importedName imported) with
      | Meta (Some namespace) => (<[local := namespace]> namespaces, [])
      | _ => (namespaces, [])
      end
  | _ => (namespaces, [])
  end.

(** [forEach] over a list of nodes with a callback that updates the
    table and reports. *)
Fixpoint forEach (f : gmap string ExportMap -> Node -> gmap string ExportMap * list Diagnostic)
    (namespaces : gmap string ExportMap) (l : list Node)
  : gmap string ExportMap * list Diagnostic :=
  match l with
  | [] => (namespaces, [])
  | x :: rest =>
      let '(namespaces1, reports1) := f namespaces x in
      let '(namespaces2, reports2) := forEach f namespaces1 rest in
      (namespaces2, reports1 ++ reports2)
  end.

Definition processBodyStatement (namespaces : gmap string ExportMap)
    (declaration : Node) : gmap string ExportMap * list Diagnostic :=
  match declaration with
  | ImportDeclaration specifiers source =>
      if Nat.eqb (length specifiers) 0 then (namespaces, [])
      else
        match Exports_get source with
        | None => (namespaces, [])
        | Some imports =>
            if Nat.ltb 0 (length (errors imports))
            then (namespaces, reportErrors imports declaration)
            else forEach (processSpecifier imports source) namespaces specifiers
        end
  | _ => (namespaces, [])
  end.

(** The [Program] visitor, on the table [create] made: every statement
    of the body in source order. *)
Definition Program (body : list Node) : gmap string ExportMap * list Diagnostic :=
  forEach processBodyStatement ∅ body.

End imports.

(** How a visitor ends: it returns, or a [TypeError] leaves it (reading a
    field of [undefined]). *)
Inductive Completion : Type :=
| Normal
| TypeError.

(** The visitors [create] returns.  They close over the option
    [allowComputed], over the table [namespaces] and, through [context],
    over the scope the traversal is in, which [declaredScope] reads. *)
Section create.

Variable allowComputed : bool.

(** [declaredScope(context, name)]: the type of the scope that declares
    [name], [None] for [undefined]. *)
Variable declaredScope : string -> option string.

Variable namespaces : gmap string ExportMap.

Definition makeMessage (last : Node) (namepath : list string) : string :=
  "'" +:+ nameText last +:+ "' not found in "
    +:+ (if Nat.ltb 1 (length namepath) then "deeply " else "")
    +:+ "imported namespace '" +:+ String.concat "." namepath +:+ "'.".

(** The report of lines 114 to 119, made when the parent is an
    assignment whose [left] is the member expression. *)
Definition reportAssignment (objectName : string) (dereference : Node)
    (parents : list Parent) : list Diagnostic :=
  match parents with
  | parent :: _ =>
      if isAssignmentTarget parent
      then [Report (parentNode parent dereference)
              ("Assignment to member of namespace '" +:+ objectName +:+ "'.")]
      else []
  | [] => []
  end.

(** The [while] loop of the member expression visitor.  [parents] are
    the ancestors of [dereference], nearest first; the list may end at
    any ancestor that is not a member expression, where the loop ends
    too.  Both [return] and [break] end the visitor, since nothing
    follows the loop. *)
Fixpoint walk (namespace : option ExportMap) (dereference : Node)
    (parents : list Parent) (namepath : list string) {struct parents}
  : list Diagnostic :=
  match namespace, dereference with
  | Some exports, ESTree.MemberExpression object property =>
      match property with
      | Computed expression =>
          if allowComputed then []
          else [Report expression
                  ("Unable to validate computed reference to imported namespace '"
                     +:+ nameText object +:+ "'.")]
      | Static propertyName =>
          if negb (has exports propertyName)
          then [Report (Identifier propertyName)
                  (makeMessage (Identifier propertyName) namepath)]
          else
            match get exports propertyName with
            | Meta exportedNamespace =>
                match parents with
                | parent :: above =>
                    walk exportedNamespace (parentNode parent dereference) above
                      (namepath ++ [propertyName])
                | [] => []
                end
            | undefined | null => []
            end
      end
  | _, _ => []
  end.

Definition MemberExpression (dereference : Node) (parents : list Parent)
  : list Diagnostic :=
  match dereference with
  | ESTree.MemberExpression (Identifier objectName) _ =>
      match namespaces !! objectName with
      | None => []
      | Some namespace =>
          if bool_decide (declaredScope objectName = Some "module")
          then reportAssignment objectName dereference parents
                 ++ walk (Some namespace) dereference parents [objectName]
          else []
      end
  | _ => []
  end.

(** [testKey] of the variable declarator visitor.  [path] is one array
    shared by all the calls, pushed to and popped from: it is passed
    in and handed back.  The reports are those made, in order. *)
Fixpoint testKey (pattern : Node) (namespace : option ExportMap)
    (path : list string) {struct pattern}
  : Completion * list string * list Diagnostic :=
  match namespace, pattern with
  | Some exports, ObjectPattern properties =>
      (fix forOf (properties : list Node) (path : list string)
           {struct properties} : Completion * list string * list Diagnostic :=
         match properties with
         | [] => (Normal, path, [])
         | property :: rest =>
             match property with
             | Property (Identifier keyName as key) value =>
                 if negb (has exports keyName)
                 then
                   let report := Report property (makeMessage key path) in
                   let '(completion, path1, reports) := forOf rest path in
                   (completion, path1, report :: reports)
                 else
                   let pushed := path ++ [keyName] in
                   match get exports keyName with
                   | null => forOf rest (removelast pushed)
                   | undefined => (TypeError, pushed, [])
                   | Meta dependencyNamespace =>
                       match testKey value dependencyNamespace pushed with
                       | (Normal, path1, reports1) =>
                           let '(completion, path2, reports2) :=
                             forOf rest (removelast path1) in
                           (completion, path2, reports1 ++ reports2)
                       | thrown => thrown
                       end
                   end
             | Property _ _ =>
                 let report := Report property "Only destructure top-level names." in
                 let '(completion, path1, reports) := forOf rest path in
                 (completion, path1, report :: reports)
             | _ => forOf rest path
             end
         end) properties path
  | _, _ => (Normal, path, [])
  end.

(** The [for ... of] loop of [testKey] on its own, over the export map
    [exports] of the pattern. *)
Section forOf.

Variable exports : ExportMap.

Fixpoint forOf (properties : list Node) (path : list string)
    {struct properties} : Completion * list string * list Diagnostic :=
  match properties with
  | [] => (Normal, path, [])
  | property :: rest =>
      match property with
      | Property (Identifier keyName as key) value =>
          if negb (has exports keyName)
          then
            let report := Report property (makeMessage key path) in
            let '(completion, path1, reports) := forOf rest path in
            (completion, path1, report :: reports)
          else
            let pushed := path ++ [keyName] in
            match get exports keyName with
            | null => forOf rest (removelast pushed)
            | undefined => (TypeError, pushed, [])
            | Meta dependencyNamespace =>
                match testKey value dependencyNamespace pushed with
                | (Normal, path1, reports1) =>
                    let '(completion, path2, reports2) :=
                      forOf rest (removelast path1) in
                    (completion, path2, reports1 ++ reports2)
                | thrown => thrown
                end
            end
      | Property _ _ =>
          let report := Report property "Only destructure top-level names." in
          let '(completion, path1, reports) := forOf rest path in
          (completion, path1, report :: reports)
      | _ => forOf rest path
      end
  end.

End forOf.

(** The variable declarator visitor; [init] is [None] for [null]. *)
Definition VariableDeclarator (id : Node) (init : option Node)
  : Completion * list Diagnostic :=
  match init with
  | Some (Identifier initName) =>
      match namespaces !! initName with
      | None => (Normal, [])
      | Some namespace =>
          if bool_decide (declaredScope initName = Some "module")
          then
            let '(completion, _, reports) :=
              testKey id (Some namespace) [initName] in
            (completion, reports)
          else (Normal, [])
      end
  | _ => (Normal, [])
  end.

(** The JSX member expression visitor.  [namespaces.has(object.name)]
    is false when [object] has no name, the keys being strings. *)
Definition JSXMemberExpression (object : Node) (property : string)
  : list Diagnostic :=
  match name object with
  | Some objectName =>
      match namespaces !! objectName with
      | None => []
      | Some namespace =>
          if negb (has namespace property)
          then [Report (JSXIdentifier property)
                  (makeMessage (JSXIdentifier property) [objectName])]
          else []
      end
  | None => []
  end.

(** [Exports.get(source, context)], the one [processBodyStatement]
    calls. *)
Variable Exports_get : string -> option ExportMap.

(** The export namespace specifier visitor, on [export * as X from 'mod'].
    [declaration] is what [importDeclaration(context)] answers, the
    declaration the specifier stands in, and [source] is its
    [source.value]. *)
Definition ExportNamespaceSpecifier (namespace : Node) (declaration : Node)
    (source : string) : list Diagnostic :=
  match Exports_get source with
  | None => []
  | Some imports =>
      if negb (Nat.eqb (length (errors imports)) 0)
      then reportErrors imports declaration
      else if Nat.eqb (size imports) 0
      then [Report namespace ("No exported names found in module '" +:+ source +:+ "'.")]
      else []
  end.

End create.

End namespaceRule.

(** ** Chains of member accesses *)

(** The vocabulary of the statements about chains: the expression a chain
    of accesses builds, the parents its innermost member expression has,
    and what it means for a sequence of names to resolve through nested
    export maps. *)
Module Chain.

(** [object] followed by the accesses [hops], innermost first. *)
Definition expression (object : Node) (hops : list MemberProperty) : Node :=
  fold_left MemberExpression hops object.

(** The parents of an expression that is accessed through [hops] and
    then sits under [above]. *)
Definition parents (hops : list MemberProperty) (above : list Parent)
  : list Parent :=
  map ObjectOf hops ++ above.

(** The export map reached from [exports] through [names]: every name is
    present, and [get] answers metadata whose [namespace] is an export
    map. *)
Fixpoint descend (exports : ExportMap) (names : list string) {struct names}
  : option ExportMap :=
  match names with
  | [] => Some exports
  | x :: rest =>
      if has exports x then
        match get exports x with
        | Meta (Some inner) => descend inner rest
        | _ => None
        end
      else None
  end.

End Chain.

(** ** Sample modules *)

Module Sample.

(** An export map given by its entries: [has] is membership, [get] the
    entry, [size] their number; no errors. *)
Definition lookup (entries : list (string * Exported)) (x : string)
  : option Exported :=
  snd <$> find (fun entry => String.eqb (fst entry) x) entries.

Definition exportsOf (entries : list (string * Exported)) : ExportMap :=
  Exports (length entries) []
    (fun x => bool_decide (is_Some (lookup entries x)))
    (fun x => default undefined (lookup entries x))
    (fun _ => []).

(** [export const c = 1] *)
Definition deep : ExportMap := exportsOf [("c", Meta None)].

(** [export * as b from './deep'] *)
Definition inner : ExportMap := exportsOf [("b", Meta (Some deep))].

(** A module with a nested namespace [a], a plain value [plain] and a
    name [ambiguous] that is present but unresolved. *)
Definition names : ExportMap :=
  exportsOf [("a", Meta (Some inner)); ("plain", Meta None); ("ambiguous", null)].

(** A module without exports. *)
Definition empty : ExportMap := exportsOf [].

(** A module that failed to parse; its hook reports on the declaration. *)
Definition broken : ExportMap :=
  Exports 0 ["Unexpected token"] (fun _ => false) (fun _ => undefined)
    (fun declaration => [Report declaration "Parse errors in imported module './broken'"]).

Definition Exports_get (source : string) : option ExportMap :=
  if String.eqb source "./names" then Some names
  else if String.eqb source "./empty" then Some empty
  else if String.eqb source "./broken" then Some broken
  else None.

(** [import * as ns from './names'] has been processed. *)
Definition namespaces : gmap string ExportMap := {[ "ns" := names ]}.

(** Every name is declared by the module scope. *)
Definition moduleScope (_ : string) : option string := Some "module".

(** [ns] is declared again by a function. *)
Definition shadowed (x : string) : option string :=
  if String.eqb x "ns" then Some "function" else Some "module".

(** A module that exports [self] again from itself: the name is
    present, and [get] answers [undefined] for it. *)
Definition cyclic : ExportMap :=
  Exports 1 [] (fun x => String.eqb x "self") (fun _ => undefined) (fun _ => []).

(** [cyc.self; import * as cyc from './cyclic'] has been processed. *)
Definition withCyclic : gmap string ExportMap := {[ "cyc" := cyclic ]}.

(** [ns.missing; import d, * as ns from './names';
    import { a as inner } from './names'; import './broken'] *)
Definition body : list Node :=
  [ExpressionStatement (MemberExpression (Identifier "ns") (Static "missing"));
   ImportDeclaration [ImportDefaultSpecifier "d"; ImportNamespaceSpecifier "ns"]
     "./names";
   ImportDeclaration [ImportSpecifier (ExportIdentifier "a") "inner"] "./names";
   ImportDeclaration [] "./broken"].

End Sample.

(** ** Where a binding comes from *)

(** [Binds imports specifier local namespace]: processing [specifier] of a
    declaration whose source resolved to [imports] sets [local] to
    [namespace] in the table. *)
Inductive Binds (imports : ExportMap) : Node -> string -> ExportMap -> Prop :=
| BindsNamespace (local : string) :
    Binds imports (ImportNamespaceSpecifier local) local imports
| BindsDefault (local : string) (namespace : ExportMap) :
    get imports "default" = Meta (Some namespace) ->
    Binds imports (ImportDefaultSpecifier local) local namespace
| BindsNamed (imported : ModuleExportName) (local : string) (namespace : ExportMap) :
    get imports (namespaceRule.importedName imported) = Meta (Some namespace) ->
    Binds imports (ImportSpecifier imported local) local namespace.

(** [Origin Exports_get body local namespace]: some specifier of some
    import declaration of [body], whose source resolved without errors,
    binds [local] to [namespace]. *)
Definition Origin (Exports_get : string -> option ExportMap) (body : list Node)
    (local : string) (namespace : ExportMap) : Prop :=
  exists (specifiers : list Node) (source : string) (imports : ExportMap)
         (specifier : Node),
    ImportDeclaration specifiers source ∈ body
    /\ specifier ∈ specifiers
    /\ Exports_get source = Some imports
    /\ errors imports = []
    /\ Binds imports specifier local namespace.

(** ** The local names of a body *)

(** [specifier.local.name] of an import specifier. *)
Definition localOf (specifier : Node) : option string :=
  match specifier with
  | ImportNamespaceSpecifier local
  | ImportDefaultSpecifier local
  | ImportSpecifier _ local => Some local
  | _ => None
  end.

(** The local names the import declarations of [body] declare, in source
    order.  A module cannot declare a name twice, so in a file that parses
    they are all different. *)
Definition declaredLocals (statement : Node) : list string :=
  match statement with
  | ImportDeclaration specifiers _ => omap localOf specifiers
  | _ => []
  end.

Definition locals (body : list Node) : list string :=
  concat (map declaredLocals body).

(** [specifier.type === 'ImportNamespaceSpecifier'] *)
Definition isNamespaceSpecifier (specifier : Node) : bool :=
  match specifier with
  | ImportNamespaceSpecifier _ => true
  | _ => false
  end.

(** ** Export maps that answer for what they have *)

(** [Answers exports]: for every name [exports] has, [get] answers [null]
    or metadata, never [undefined], and so in every namespace reached
    from it. *)
Inductive Answers : ExportMap -> Prop :=
| AnswersAll (exports : ExportMap) :
    (forall x, has exports x = true -> get exports x <> undefined) ->
    (forall x inner, get exports x = Meta (Some inner) -> Answers inner) ->
    Answers exports.

(** ** Flat patterns *)

(** The pattern [{ key1: local1, key2: local2, ... }], each value an
    identifier. *)
Definition flatProperty (entry : string * string) : Node :=
  Property (Identifier entry.1) (Identifier entry.2).

Definition flatPattern (entries : list (string * string)) : Node :=
  ObjectPattern (map flatProperty entries).

(** [property.type] is [RestElement] or [ExperimentalRestProperty]. *)
Definition isRest (property : Node) : bool :=
  match property with
  | RestElement _ | ExperimentalRestProperty _ => true
  | _ => false
  end.


(** ** The walk along a chain *)

Section walk.

Variable allowComputed : bool.

(** While the names resolve, the loop climbs: after the names [resolved]
    it is at the access that follows them, in the export map they lead
    to, with the names appended to the path. *)
Lemma walk_descend (resolved : list string) :
  forall (exports current : ExportMap) (object : Node)
    (hop first : MemberProperty) (more : list MemberProperty)
    (above : list Parent) (namepath : list string),
    Chain.descend exports resolved = Some current ->
    map Static resolved ++ [hop] = first :: more ->
    namespaceRule.walk allowComputed (Some exports)
      (MemberExpression object first) (Chain.parents more above) namepath
    = namespaceRule.walk allowComputed (Some current)
        (MemberExpression (Chain.expression object (map Static resolved)) hop)
        above (namepath ++ resolved).
Proof.
  induction resolved as [|x rest IH];
    intros exports current object hop first more above namepath Hd Hc.
  - cbn in Hd, Hc. simplify_eq. cbn. by rewrite app_nil_r.
  - cbn in Hd, Hc. simplify_eq.
    destruct (has exports x) eqn:Hhas; [|done].
    destruct (get exports x) as [| |[inner|]] eqn:Hget; try done.
    destruct (map Static rest ++ [hop]) as [|first' more'] eqn:Hrest.
    { by destruct rest. }
    cbn [namespaceRule.walk Chain.parents map app].
    rewrite Hhas, Hget. cbn [negb parentNode].
    change (map ObjectOf more' ++ above) with (Chain.parents more' above).
    rewrite (IH inner current _ hop first' more' above _ Hd Hrest).
    by rewrite <- app_assoc.
Qed.

End walk.

(** ** The walk through a pattern *)

Section testKey.

(** On an object pattern under an export map, [testKey] is its loop. *)
Lemma testKey_ObjectPattern (exports : ExportMap) (properties : list Node)
    (path : list string) :
  namespaceRule.testKey (ObjectPattern properties) (Some exports) path
  = namespaceRule.forOf exports properties path.
Proof. reflexivity. Qed.

(** A key that is present while [get] answers [undefined] makes the loop
    read a field of [undefined]: the visitor is left by a [TypeError],
    with the key still on the path. *)
Lemma forOf_undefined_throws (exports : ExportMap) (key : string)
    (value : Node) (rest : list Node) (path : list string) :
  has exports key = true ->
  get exports key = undefined ->
  namespaceRule.forOf exports (Property (Identifier key) value :: rest) path
  = (namespaceRule.TypeError, path ++ [key], []).
Proof. intros Hhas Hget. cbn [namespaceRule.forOf]. by rewrite Hhas, Hget. Qed.

(** X10. [path] is pushed to and popped from in step: a walk that
    returns hands the array back as it got it, so the properties that
    follow see the path of their own level. *)
Lemma testKey_path_restored :
  forall (pattern : Node) (namespace : option ExportMap) (path : list string),
    (namespaceRule.testKey pattern namespace path).1.1 = namespaceRule.Normal ->
    (namespaceRule.testKey pattern namespace path).1.2 = path.
Proof.
  fix IH 1. intros pattern [exports|] path; [|by destruct pattern].
  destruct pattern as [| | | | |properties| | | | | | | | | | | |]; try done.
  rewrite testKey_ObjectPattern. revert path.
  induction properties as [|property rest IHrest]; intros path; [done|].
  destruct property as [| | | | | | | |key value| | | | | | | | |];
    try exact (IHrest path).
  cbn [namespaceRule.forOf].
  assert (Hskip : forall report : Diagnostic,
    (let '(completion, path1, reports) := namespaceRule.forOf exports rest path in
     (completion, path1, report :: reports)).1.1 = namespaceRule.Normal ->
    (let '(completion, path1, reports) := namespaceRule.forOf exports rest path in
     (completion, path1, report :: reports)).1.2 = path).
  { intros report. specialize (IHrest path).
    by destruct (namespaceRule.forOf exports rest path) as [[? ?] ?]. }
  destruct key as [keyName| | | | | | | | | | | | | | | | |];
    try exact (Hskip _).
  destruct (negb (has exports keyName)); [exact (Hskip _)|].
  destruct (get exports keyName) as [| |dependencyNamespace]; [done| |].
  - rewrite removelast_last. exact (IHrest path).
  - specialize (IH value dependencyNamespace (path ++ [keyName])).
    destruct (namespaceRule.testKey value dependencyNamespace (path ++ [keyName]))
      as [[[|] path1] reports1]; [|done].
    cbn in IH. rewrite IH by done. rewrite removelast_last.
    specialize (IHrest path).
    by destruct (namespaceRule.forOf exports rest path) as [[? ?] ?].
Qed.

End testKey.

(** ** The table of bindings *)

Section bindings.

Variable Exports_get : string -> option ExportMap.

Lemma forEach_app
    (f : gmap string ExportMap -> Node -> gmap string ExportMap * list Diagnostic)
    (before after : list Node) :
  forall namespaces : gmap string ExportMap,
    namespaceRule.forEach f namespaces (before ++ after)
    = let '(namespaces1, reports1) := namespaceRule.forEach f namespaces before in
      let '(namespaces2, reports2) := namespaceRule.forEach f namespaces1 after in
      (namespaces2, reports1 ++ reports2).
Proof.
  induction before as [|x before IH]; intros namespaces; cbn.
  - by destruct (namespaceRule.forEach f namespaces after).
  - destruct (f namespaces x) as [namespaces1 reports1].
    rewrite IH.
    destruct (namespaceRule.forEach f namespaces1 before) as [namespaces2 reports2].
    destruct (namespaceRule.forEach f namespaces2 after) as [namespaces3 reports3].
    by rewrite app_assoc.
Qed.

(** A property of the table that every step of a loop keeps holds when
    the loop is over. *)
Lemma forEach_invariant (P : gmap string ExportMap -> Prop)
    (f : gmap string ExportMap -> Node -> gmap string ExportMap * list Diagnostic)
    (l : list Node) :
  (forall namespaces x, x ∈ l -> P namespaces -> P (f namespaces x).1) ->
  forall namespaces, P namespaces -> P (namespaceRule.forEach f namespaces l).1.
Proof.
  induction l as [|x l IH]; intros Hstep namespaces HP; [done|].
  cbn. specialize (Hstep namespaces x (list_elem_of_here _ _) HP) as Hx.
  destruct (f namespaces x) as [namespaces1 reports1]. cbn in Hx.
  specialize (IH (fun n y Hy => Hstep n y (list_elem_of_further _ _ _ Hy)) _ Hx).
  by destruct (namespaceRule.forEach f namespaces1 l).
Qed.

(** What one specifier does to the table: nothing, or one binding. *)
Lemma processSpecifier_table (imports : ExportMap) (source : string)
    (namespaces : gmap string ExportMap) (specifier : Node) :
  (namespaceRule.processSpecifier imports source namespaces specifier).1 = namespaces
  \/ exists local namespace,
       Binds imports specifier local namespace
       /\ (namespaceRule.processSpecifier imports source namespaces specifier).1
          = <[local := namespace]> namespaces.
Proof.
  destruct specifier as [| | | | | | | | | | |local|local|imported local| | | |];
    try (by left); cbn.
  - right. exists local, imports. split; [constructor|done].
  - destruct (get imports "default") as [| |[namespace|]] eqn:Hget;
      try (by left).
    right. exists local, namespace. split; [by constructor|done].
  - destruct (get imports (namespaceRule.importedName imported))
      as [| |[namespace|]] eqn:Hget; try (by left).
    right. exists local, namespace. split; [by constructor|done].
Qed.

(** Every entry of the table [Program] builds has an origin in the
    body. *)
Lemma Program_origin (body : list Node) (local : string) (namespace : ExportMap) :
  (namespaceRule.Program Exports_get body).1 !! local = Some namespace ->
  Origin Exports_get body local namespace.
Proof.
  unfold namespaceRule.Program.
  apply (forEach_invariant
           (fun table => table !! local = Some namespace ->
                         Origin Exports_get body local namespace));
    [|by rewrite lookup_empty].
  intros namespaces declaration Hin HP.
  destruct declaration
    as [| | | | | | | | | | | | | |specifiers source| | |]; try exact HP.
  cbn. destruct (Nat.eqb (length specifiers) 0); [exact HP|].
  destruct (Exports_get source) as [imports|] eqn:Hget; [|exact HP].
  destruct (errors imports) as [|failure failures] eqn:Hnone; [|exact HP].
  cbn.
  apply (forEach_invariant
           (fun table => table !! local = Some namespace ->
                         Origin Exports_get body local namespace));
    [|exact HP].
  intros table specifier Hspecifier Htable.
  destruct (processSpecifier_table imports source table specifier)
    as [->|(local' & namespace' & Hbinds & ->)]; [exact Htable|].
  destruct (decide (local' = local)) as [->|Hne].
  - rewrite lookup_insert_eq. intros [= ->].
    by exists specifiers, source, imports, specifier.
  - by rewrite lookup_insert_ne.
Qed.

End bindings.

(** ** Member expressions *)

Section member_expressions.

Variable allowComputed : bool.
Variable declaredScope : string -> option string.
Variable namespaces : gmap string ExportMap.

(** The visitor on the innermost member expression of a chain whose
    names [resolved] resolve: the assignment report, if any, and then
    the loop at the access after them. *)
Lemma MemberExpression_descend (root : string) (exports current : ExportMap)
    (resolved : list string) (hop first : MemberProperty)
    (more : list MemberProperty) (above : list Parent) :
  namespaces !! root = Some exports ->
  declaredScope root = Some "module" ->
  Chain.descend exports resolved = Some current ->
  map Static resolved ++ [hop] = first :: more ->
  namespaceRule.MemberExpression allowComputed declaredScope namespaces
    (MemberExpression (Identifier root) first) (Chain.parents more above)
  = namespaceRule.reportAssignment root
      (MemberExpression (Identifier root) first) (Chain.parents more above)
    ++ namespaceRule.walk allowComputed (Some current)
         (MemberExpression (Chain.expression (Identifier root) (map Static resolved)) hop)
         above (root :: resolved).
Proof.
  intros Hbound Hscope Hdescend Hchain.
  unfold namespaceRule.MemberExpression.
  rewrite Hbound, Hscope, bool_decide_eq_true_2 by done.
  by rewrite (walk_descend allowComputed resolved exports current _ hop first more
                above [root] Hdescend Hchain).
Qed.

(** A member expression whose object is itself a member expression is
    left to the visit of the innermost one. *)
Lemma MemberExpression_outer (object : Node) (inner outer : MemberProperty)
    (parents : list Parent) :
  namespaceRule.MemberExpression allowComputed declaredScope namespaces
    (MemberExpression (MemberExpression object inner) outer) parents = [].
Proof. reflexivity. Qed.

(** Where the loop meets a name that is present while [get] answers
    [null] or [undefined], the visitor reports nothing but the
    assignment. *)
Lemma MemberExpression_unresolved (root : string) (exports current : ExportMap)
    (resolved : list string) (unresolved : string) (first : MemberProperty)
    (more : list MemberProperty) (above : list Parent) :
  namespaces !! root = Some exports ->
  declaredScope root = Some "module" ->
  Chain.descend exports resolved = Some current ->
  has current unresolved = true ->
  get current unresolved = null \/ get current unresolved = undefined ->
  map Static resolved ++ [Static unresolved] = first :: more ->
  namespaceRule.MemberExpression allowComputed declaredScope namespaces
    (MemberExpression (Identifier root) first) (Chain.parents more above)
  = namespaceRule.reportAssignment root
      (MemberExpression (Identifier root) first) (Chain.parents more above).
Proof.
  intros Hbound Hscope Hdescend Hhas Hget Hchain.
  rewrite (MemberExpression_descend root exports current resolved
             (Static unresolved) first more above) by done.
  destruct above; cbn [namespaceRule.walk]; rewrite Hhas;
    destruct Hget as [-> | ->]; apply app_nil_r.
Qed.

(** C1. On a chain rooted at an identifier that is in the table and
    passes the scope check, whose first k names [resolved] resolve to
    nested export maps and whose next name [missing] is absent from the
    export map reached, the visitor reports once that the name is not
    found (after the assignment report, when the chain is an assignment
    target): the message is made from the path of the root and the k
    names, of length k+1, and says "deeply" exactly when k is not 0.
    Whatever lies [above] in the chain is not looked at, and the visits
    of the outer member expressions of the chain report nothing. *)
Theorem missing_segment_reported_once (root : string)
    (exports current : ExportMap) (resolved : list string) (missing : string)
    (first : MemberProperty) (more : list MemberProperty) (above : list Parent) :
  namespaces !! root = Some exports ->
  declaredScope root = Some "module" ->
  Chain.descend exports resolved = Some current ->
  has current missing = false ->
  map Static resolved ++ [Static missing] = first :: more ->
  let dereference := MemberExpression (Identifier root) first in
  let parents := Chain.parents more above in
  let namepath := root :: resolved in
  namespaceRule.MemberExpression allowComputed declaredScope namespaces
    dereference parents
  = namespaceRule.reportAssignment root dereference parents
    ++ [Report (Identifier missing)
          (namespaceRule.makeMessage (Identifier missing) namepath)]
  /\ length namepath = S (length resolved)
  /\ namespaceRule.makeMessage (Identifier missing) namepath
     = "'" +:+ missing +:+ "' not found in "
         +:+ match resolved with [] => "" | _ :: _ => "deeply " end
         +:+ "imported namespace '" +:+ String.concat "." namepath +:+ "'."
  /\ forall (object : Node) (inner outer : MemberProperty) (parents' : list Parent),
       namespaceRule.MemberExpression allowComputed declaredScope namespaces
         (MemberExpression (MemberExpression object inner) outer) parents' = [].
Proof.
  intros Hbound Hscope Hdescend Hmissing Hchain dereference parents namepath.
  split; [|split; [done|split]].
  - unfold dereference, parents.
    rewrite (MemberExpression_descend root exports current resolved
               (Static missing) first more above) by done.
    destruct above; cbn [namespaceRule.walk]; by rewrite Hmissing.
  - unfold namepath. by destruct resolved.
  - intros. apply MemberExpression_outer.
Qed.

(** C3. A member expression on an identifier that is in the table and
    passes the scope check, sitting as the left side of an assignment,
    gets the report of an assignment to a namespace member, on the
    assignment; this holds for every property, found or not. *)
Theorem assignment_to_member_reported (objectName : string)
    (exports : ExportMap) (property : MemberProperty) (rhs : Node)
    (above : list Parent) :
  namespaces !! objectName = Some exports ->
  declaredScope objectName = Some "module" ->
  let dereference := MemberExpression (Identifier objectName) property in
  namespaceRule.MemberExpression allowComputed declaredScope namespaces
    dereference (LeftOf rhs :: above)
  = Report (AssignmentExpression dereference rhs)
      ("Assignment to member of namespace '" +:+ objectName +:+ "'.")
    :: namespaceRule.walk allowComputed (Some exports) dereference
         (LeftOf rhs :: above) [objectName].
Proof.
  intros Hbound Hscope dereference.
  unfold namespaceRule.MemberExpression, dereference.
  by rewrite Hbound, Hscope, bool_decide_eq_true_2.
Qed.

(** C10. The report of the assignment does not end the visit: for
    [ns.x = v] with [ns] in the table, passing the scope check, and [x]
    absent from the namespace, two reports are made, the assignment to a
    member and the name not found. *)
Theorem assignment_to_missing_member_reported_twice (ns x : string)
    (exports : ExportMap) (v : Node) (above : list Parent) :
  namespaces !! ns = Some exports ->
  declaredScope ns = Some "module" ->
  has exports x = false ->
  let dereference := MemberExpression (Identifier ns) (Static x) in
  namespaceRule.MemberExpression allowComputed declaredScope namespaces
    dereference (LeftOf v :: above)
  = [ Report (AssignmentExpression dereference v)
        ("Assignment to member of namespace '" +:+ ns +:+ "'.");
      Report (Identifier x)
        ("'" +:+ x +:+ "' not found in imported namespace '" +:+ ns +:+ "'.") ].
Proof.
  intros Hbound Hscope Hmissing dereference.
  unfold namespaceRule.MemberExpression, dereference.
  rewrite Hbound, Hscope, bool_decide_eq_true_2 by done.
  cbn [namespaceRule.reportAssignment isAssignmentTarget parentNode app
       namespaceRule.walk].
  by rewrite Hmissing.
Qed.


(** Under a name that an inner scope declares the visitor does nothing. *)
Lemma MemberExpression_shadowed (objectName : string) (property : MemberProperty)
    (parents : list Parent) :
  declaredScope objectName <> Some "module" ->
  namespaceRule.MemberExpression allowComputed declaredScope namespaces
    (MemberExpression (Identifier objectName) property) parents = [].
Proof.
  intros Hscope. unfold namespaceRule.MemberExpression.
  destruct (namespaces !! objectName); [|done].
  by rewrite bool_decide_eq_false_2.
Qed.

End member_expressions.

(** ** Names that are present but unresolved *)

Section unresolved.

Variable allowComputed : bool.

(** C5. In the loop over a chain and in the walk through a pattern, a name
    that the current export map has but for which [get] answers [null]
    ends the validation of the chain, or of the branch under that key,
    without a report; a name the export map does not have is reported as
    not found.  For patterns this is said of [testKey], so at every level
    of the recursion, and of the visitor: a key that is present and
    [null] is passed over together with what stands under it, the
    properties that follow being validated as if it were not there, and an
    absent key puts its report before theirs. *)
Theorem null_export_stops_silently (exports : ExportMap)
    (present absent : string) :
  has exports present = true ->
  get exports present = null ->
  has exports absent = false ->
  (forall (object : Node) (parents : list Parent) (namepath : list string),
     namespaceRule.walk allowComputed (Some exports)
       (MemberExpression object (Static present)) parents namepath = [])
  /\ (forall (object : Node) (parents : list Parent) (namepath : list string),
        namespaceRule.walk allowComputed (Some exports)
          (MemberExpression object (Static absent)) parents namepath
        = [Report (Identifier absent)
             (namespaceRule.makeMessage (Identifier absent) namepath)])
  /\ (forall (value : Node) (rest : list Node) (path : list string),
        namespaceRule.testKey
          (ObjectPattern (Property (Identifier present) value :: rest))
          (Some exports) path
        = namespaceRule.testKey (ObjectPattern rest) (Some exports) path)
  /\ (forall (value : Node) (rest : list Node) (path : list string),
        namespaceRule.testKey
          (ObjectPattern (Property (Identifier absent) value :: rest))
          (Some exports) path
        = let '(completion, path1, reports) :=
            namespaceRule.testKey (ObjectPattern rest) (Some exports) path in
          (completion, path1,
           Report (Property (Identifier absent) value)
             (namespaceRule.makeMessage (Identifier absent) path) :: reports))
  /\ (forall (declaredScope : string -> option string)
             (namespaces : gmap string ExportMap) (ns : string)
             (value : Node) (rest : list Node),
        namespaces !! ns = Some exports ->
        declaredScope ns = Some "module" ->
        namespaceRule.VariableDeclarator declaredScope namespaces
          (ObjectPattern (Property (Identifier present) value :: rest))
          (Some (Identifier ns))
        = namespaceRule.VariableDeclarator declaredScope namespaces
            (ObjectPattern rest) (Some (Identifier ns))
        /\ namespaceRule.VariableDeclarator declaredScope namespaces
             (ObjectPattern (Property (Identifier absent) value :: rest))
             (Some (Identifier ns))
           = let '(completion, reports) :=
               namespaceRule.VariableDeclarator declaredScope namespaces
                 (ObjectPattern rest) (Some (Identifier ns)) in
             (completion,
              Report (Property (Identifier absent) value)
                (namespaceRule.makeMessage (Identifier absent) [ns]) :: reports)).
Proof.
  intros Hpresent Hnull Habsent.
  assert (Hpassed : forall (value : Node) (rest : list Node) (path : list string),
            namespaceRule.testKey
              (ObjectPattern (Property (Identifier present) value :: rest))
              (Some exports) path
            = namespaceRule.testKey (ObjectPattern rest) (Some exports) path).
  { intros value rest path. rewrite !testKey_ObjectPattern.
    cbn [namespaceRule.forOf]. by rewrite Hpresent, Hnull, removelast_last. }
  assert (Hreported : forall (value : Node) (rest : list Node) (path : list string),
            namespaceRule.testKey
              (ObjectPattern (Property (Identifier absent) value :: rest))
              (Some exports) path
            = let '(completion, path1, reports) :=
                namespaceRule.testKey (ObjectPattern rest) (Some exports) path in
              (completion, path1,
               Report (Property (Identifier absent) value)
                 (namespaceRule.makeMessage (Identifier absent) path) :: reports)).
  { intros value rest path. rewrite !testKey_ObjectPattern.
    cbn [namespaceRule.forOf]. by rewrite Habsent. }
  split; [|split; [|split; [exact Hpassed|split; [exact Hreported|]]]].
  - intros object [|parent above] namepath;
      cbn [namespaceRule.walk]; by rewrite Hpresent, Hnull.
  - intros object [|parent above] namepath;
      cbn [namespaceRule.walk]; by rewrite Habsent.
  - intros declaredScope namespaces ns value rest Hbound Hscope.
    unfold namespaceRule.VariableDeclarator.
    rewrite Hbound, Hscope, bool_decide_eq_true_2 by done.
    rewrite Hpassed, Hreported. split; [done|].
    by destruct (namespaceRule.testKey (ObjectPattern rest) (Some exports) [ns])
      as [[completion path1] reports].
Qed.

End unresolved.

(** ** Destructuring *)

Section destructuring.

Variable declaredScope : string -> option string.
Variable namespaces : gmap string ExportMap.

(** Under a name that an inner scope declares the visitor does nothing. *)
Lemma VariableDeclarator_shadowed (id : Node) (initName : string) :
  declaredScope initName <> Some "module" ->
  namespaceRule.VariableDeclarator declaredScope namespaces id
    (Some (Identifier initName)) = (namespaceRule.Normal, []).
Proof.
  intros Hscope. unfold namespaceRule.VariableDeclarator.
  destruct (namespaces !! initName); [|done].
  by rewrite bool_decide_eq_false_2.
Qed.


End destructuring.

(** ** The scope check *)

Section scope.

Variable allowComputed : bool.
Variable declaredScope : string -> option string.
Variable namespaces : gmap string ExportMap.

(** C8. For a name that is in the table but that the scope oracle does
    not place in the module scope, neither the visit of a member
    expression on it nor the visit of a declarator destructuring it
    reports or validates anything. *)
Theorem shadowed_name_not_validated (x : string) (exports : ExportMap) :
  namespaces !! x = Some exports ->
  declaredScope x <> Some "module" ->
  (forall (property : MemberProperty) (parents : list Parent),
     namespaceRule.MemberExpression allowComputed declaredScope namespaces
       (MemberExpression (Identifier x) property) parents = [])
  /\ (forall id : Node,
        namespaceRule.VariableDeclarator declaredScope namespaces id
          (Some (Identifier x)) = (namespaceRule.Normal, [])).
Proof.
  intros _ Hscope. split.
  - intros. by apply MemberExpression_shadowed.
  - intros. by apply VariableDeclarator_shadowed.
Qed.

(** C9. The visitor of a JSX member expression takes no scope oracle:
    for a tag [Ns.Member] with [Ns] in the table and [Member] absent
    from its namespace the name is reported as not found, also where
    [Ns] is declared by an inner scope, where the same access written as
    a member expression or a destructuring reports nothing. *)
Theorem JSX_member_reported_when_shadowed (Ns Member : string)
    (exports : ExportMap) :
  namespaces !! Ns = Some exports ->
  has exports Member = false ->
  declaredScope Ns <> Some "module" ->
  namespaceRule.JSXMemberExpression namespaces (JSXIdentifier Ns) Member
  = [Report (JSXIdentifier Member)
       ("'" +:+ Member +:+ "' not found in imported namespace '" +:+ Ns +:+ "'.")]
  /\ (forall parents : list Parent,
        namespaceRule.MemberExpression allowComputed declaredScope namespaces
          (MemberExpression (Identifier Ns) (Static Member)) parents = [])
  /\ (forall id : Node,
        namespaceRule.VariableDeclarator declaredScope namespaces id
          (Some (Identifier Ns)) = (namespaceRule.Normal, [])).
Proof.
  intros Hbound Hmissing Hscope. repeat split.
  - unfold namespaceRule.JSXMemberExpression. cbn [name].
    by rewrite Hbound, Hmissing.
  - intros. by apply MemberExpression_shadowed.
  - intros. by apply VariableDeclarator_shadowed.
Qed.

End scope.

(** ** Import declarations *)

Section import_declarations.

Variable Exports_get : string -> option ExportMap.

(** C7. A namespace specifier of an import whose source resolved to an
    export map without errors and of size zero gets exactly one report,
    on the specifier, that the module exports no names, and its local
    name is set in the table to that export map all the same: so for the
    callback on the specifier, and so for the declaration, whatever
    specifiers stand [before] and [after] it. *)
Theorem empty_namespace_reported_and_bound
    (namespaces : gmap string ExportMap) (source local : string)
    (imports : ExportMap) (before after : list Node) :
  Exports_get source = Some imports ->
  errors imports = [] ->
  size imports = 0 ->
  let specifier := ImportNamespaceSpecifier local in
  let report :=
    Report specifier ("No exported names found in module '" +:+ source +:+ "'.") in
  namespaceRule.processSpecifier imports source namespaces specifier
  = (<[local := imports]> namespaces, [report])
  /\ (<[local := imports]> namespaces) !! local = Some imports
  /\ namespaceRule.processBodyStatement Exports_get namespaces
       (ImportDeclaration (before ++ specifier :: after) source)
     = let '(namespaces1, reports1) :=
         namespaceRule.forEach (namespaceRule.processSpecifier imports source)
           namespaces before in
       let '(namespaces2, reports2) :=
         namespaceRule.forEach (namespaceRule.processSpecifier imports source)
           (<[local := imports]> namespaces1) after in
       (namespaces2, reports1 ++ report :: reports2).
Proof.
  intros Hget Herrors Hsize specifier report. repeat split.
  - cbn. by rewrite Hsize.
  - apply lookup_insert_eq.
  - unfold namespaceRule.processBodyStatement.
    rewrite Hget, Herrors.
    replace (Nat.eqb (length (before ++ specifier :: after)) 0) with false
      by (by destruct before).
    cbn [length Nat.ltb Nat.leb]. rewrite forEach_app.
    destruct (namespaceRule.forEach _ namespaces before) as [namespaces1 reports1].
    cbn [namespaceRule.forEach namespaceRule.processSpecifier specifier].
    rewrite Hsize. cbn [Nat.eqb].
    by destruct (namespaceRule.forEach _ (<[local:=imports]> namespaces1) after).
Qed.

(** C2, as the rule has it. For an import declaration with at least one
    specifier whose source resolved to an export map with errors, the
    visitor hands the declaration to the error hook of the export map,
    reports what the hook reports, and leaves the table as it was. And a
    local name is in the table [Program] builds only by a specifier of a
    declaration whose source resolved without errors. *)
Theorem errors_forwarded_and_nothing_bound
    (namespaces : gmap string ExportMap) (specifiers : list Node)
    (source : string) (imports : ExportMap) :
  specifiers <> [] ->
  Exports_get source = Some imports ->
  errors imports <> [] ->
  namespaceRule.processBodyStatement Exports_get namespaces
    (ImportDeclaration specifiers source)
  = (namespaces, reportErrors imports (ImportDeclaration specifiers source))
  /\ forall (body : list Node) (local : string) (namespace : ExportMap),
       (namespaceRule.Program Exports_get body).1 !! local = Some namespace ->
       Origin Exports_get body local namespace.
Proof.
  intros Hspecifiers Hget Herrors. split.
  - unfold namespaceRule.processBodyStatement. rewrite Hget.
    destruct specifiers; [done|]. by destruct (errors imports).
  - apply Program_origin.
Qed.

End import_declarations.

(** ** The properties at sample inputs *)

(** [import * as ns from './names'; import { a as inner } from './names';
    import { plain } from './names'] *)
Example Program_sample :
  namespaceRule.Program Sample.Exports_get
    [ImportDeclaration [ImportNamespaceSpecifier "ns"] "./names";
     ImportDeclaration [ImportSpecifier (ExportIdentifier "a") "inner"] "./names";
     ImportDeclaration [ImportSpecifier (ExportIdentifier "plain") "plain"] "./names"]
  = (<["inner" := Sample.inner]> Sample.namespaces, []).
Proof. reflexivity. Qed.

(** [ns.a.b.d.e;] where [ns.a.b] is a namespace without [d]. *)
Lemma missing_segment_reported_once_sample :
  Sample.namespaces !! "ns" = Some Sample.names
  /\ Sample.moduleScope "ns" = Some "module"
  /\ Chain.descend Sample.names ["a"; "b"] = Some Sample.deep
  /\ has Sample.deep "d" = false
  /\ namespaceRule.MemberExpression false Sample.moduleScope Sample.namespaces
       (MemberExpression (Identifier "ns") (Static "a"))
       [ObjectOf (Static "b"); ObjectOf (Static "d"); ObjectOf (Static "e");
        ExpressionOf]
     = [Report (Identifier "d")
          "'d' not found in deeply imported namespace 'ns.a.b'."].
Proof.
  do 4 (split; [reflexivity|]).
  exact (proj1 (missing_segment_reported_once false Sample.moduleScope
                  Sample.namespaces "ns" Sample.names Sample.deep ["a"; "b"] "d"
                  (Static "a") [Static "b"; Static "d"]
                  [ObjectOf (Static "e"); ExpressionOf]
                  eq_refl eq_refl eq_refl eq_refl eq_refl)).
Defined.

(** [ns.a = 1;] *)
Lemma assignment_to_member_reported_sample :
  Sample.namespaces !! "ns" = Some Sample.names
  /\ Sample.moduleScope "ns" = Some "module"
  /\ namespaceRule.MemberExpression false Sample.moduleScope Sample.namespaces
       (MemberExpression (Identifier "ns") (Static "a"))
       [LeftOf (Literal "1"); ExpressionOf]
     = [Report
          (AssignmentExpression (MemberExpression (Identifier "ns") (Static "a"))
             (Literal "1"))
          "Assignment to member of namespace 'ns'."].
Proof.
  do 2 (split; [reflexivity|]).
  exact (assignment_to_member_reported false Sample.moduleScope Sample.namespaces
           "ns" Sample.names (Static "a") (Literal "1") [ExpressionOf]
           eq_refl eq_refl).
Defined.

(** [ns.missing = 1;] *)
Lemma assignment_to_missing_member_reported_twice_sample :
  Sample.namespaces !! "ns" = Some Sample.names
  /\ Sample.moduleScope "ns" = Some "module"
  /\ has Sample.names "missing" = false
  /\ namespaceRule.MemberExpression false Sample.moduleScope Sample.namespaces
       (MemberExpression (Identifier "ns") (Static "missing"))
       [LeftOf (Literal "1"); ExpressionOf]
     = [Report
          (AssignmentExpression
             (MemberExpression (Identifier "ns") (Static "missing")) (Literal "1"))
          "Assignment to member of namespace 'ns'.";
        Report (Identifier "missing")
          "'missing' not found in imported namespace 'ns'."].
Proof.
  do 3 (split; [reflexivity|]).
  exact (assignment_to_missing_member_reported_twice false Sample.moduleScope
           Sample.namespaces "ns" "missing" Sample.names (Literal "1")
           [ExpressionOf] eq_refl eq_refl eq_refl).
Defined.



(** [ns.ambiguous.x;] and [ns.missing.x;], and the declarators
    [const { ambiguous: { x }, gone, plain } = ns;] and
    [const { missing: { x }, ambiguous: { x }, gone } = ns;]; and
    [testKey] on such patterns at a level where the path has two names. *)
Lemma null_export_stops_silently_sample :
  has Sample.names "ambiguous" = true
  /\ get Sample.names "ambiguous" = null
  /\ has Sample.names "missing" = false
  /\ namespaceRule.walk false (Some Sample.names)
       (MemberExpression (Identifier "ns") (Static "ambiguous"))
       [ObjectOf (Static "x"); ExpressionOf] ["ns"] = []
  /\ namespaceRule.walk false (Some Sample.names)
       (MemberExpression (Identifier "ns") (Static "missing"))
       [ObjectOf (Static "x"); ExpressionOf] ["ns"]
     = [Report (Identifier "missing")
          "'missing' not found in imported namespace 'ns'."]
  /\ namespaceRule.testKey
       (ObjectPattern
          [Property (Identifier "ambiguous")
             (ObjectPattern [Property (Identifier "x") (Identifier "x")]);
           Property (Identifier "gone") (Identifier "gone")])
       (Some Sample.names) ["ns"; "a"]
     = (namespaceRule.Normal, ["ns"; "a"],
        [Report (Property (Identifier "gone") (Identifier "gone"))
           "'gone' not found in deeply imported namespace 'ns.a'."])
  /\ namespaceRule.testKey
       (ObjectPattern
          [Property (Identifier "missing")
             (ObjectPattern [Property (Identifier "x") (Identifier "x")]);
           Property (Identifier "a") (Identifier "a")])
       (Some Sample.names) ["ns"; "a"]
     = (namespaceRule.Normal, ["ns"; "a"],
        [Report
           (Property (Identifier "missing")
              (ObjectPattern [Property (Identifier "x") (Identifier "x")]))
           "'missing' not found in deeply imported namespace 'ns.a'."])
  /\ namespaceRule.VariableDeclarator Sample.moduleScope Sample.namespaces
       (ObjectPattern
          [Property (Identifier "ambiguous")
             (ObjectPattern [Property (Identifier "x") (Identifier "x")]);
           Property (Identifier "gone") (Identifier "gone");
           Property (Identifier "plain") (Identifier "plain")])
       (Some (Identifier "ns"))
     = (namespaceRule.Normal,
        [Report (Property (Identifier "gone") (Identifier "gone"))
           "'gone' not found in imported namespace 'ns'."])
  /\ namespaceRule.VariableDeclarator Sample.moduleScope Sample.namespaces
       (ObjectPattern
          [Property (Identifier "missing")
             (ObjectPattern [Property (Identifier "x") (Identifier "x")]);
           Property (Identifier "ambiguous")
             (ObjectPattern [Property (Identifier "x") (Identifier "x")]);
           Property (Identifier "gone") (Identifier "gone")])
       (Some (Identifier "ns"))
     = (namespaceRule.Normal,
        [Report
           (Property (Identifier "missing")
              (ObjectPattern [Property (Identifier "x") (Identifier "x")]))
           "'missing' not found in imported namespace 'ns'.";
         Report (Property (Identifier "gone") (Identifier "gone"))
           "'gone' not found in imported namespace 'ns'."]).
Proof.
  do 3 (split; [reflexivity|]).
  destruct (null_export_stops_silently false Sample.names "ambiguous" "missing"
              eq_refl eq_refl eq_refl)
    as (Hchain & Hchain' & Hpattern & Hpattern' & Hvisitor).
  destruct (Hvisitor Sample.moduleScope Sample.namespaces "ns"
              (ObjectPattern [Property (Identifier "x") (Identifier "x")])
              [Property (Identifier "gone") (Identifier "gone");
               Property (Identifier "plain") (Identifier "plain")]
              eq_refl eq_refl) as [Hpassed _].
  destruct (Hvisitor Sample.moduleScope Sample.namespaces "ns"
              (ObjectPattern [Property (Identifier "x") (Identifier "x")])
              [Property (Identifier "ambiguous")
                 (ObjectPattern [Property (Identifier "x") (Identifier "x")]);
               Property (Identifier "gone") (Identifier "gone")]
              eq_refl eq_refl) as [_ Hreported].
  split; [|split; [|split; [|split; [|split]]]].
  - exact (Hchain _ _ _).
  - exact (Hchain' _ _ _).
  - exact (Hpattern _ _ _).
  - exact (Hpattern' _ _ _).
  - exact Hpassed.
  - exact Hreported.
Defined.


(** [import d, * as ns from './empty'] *)
Lemma empty_namespace_reported_and_bound_sample :
  Sample.Exports_get "./empty" = Some Sample.empty
  /\ errors Sample.empty = []
  /\ size Sample.empty = 0
  /\ namespaceRule.processBodyStatement Sample.Exports_get ∅
       (ImportDeclaration [ImportDefaultSpecifier "d"; ImportNamespaceSpecifier "ns"]
          "./empty")
     = (<["ns" := Sample.empty]> ∅,
        [Report (ImportNamespaceSpecifier "ns")
           "No exported names found in module './empty'."]).
Proof.
  do 3 (split; [reflexivity|]).
  exact (proj2 (proj2 (empty_namespace_reported_and_bound Sample.Exports_get ∅
                         "./empty" "ns" Sample.empty [ImportDefaultSpecifier "d"] []
                         eq_refl eq_refl eq_refl))).
Defined.

(** [ns.missing;] and [const { missing } = ns;] where a function declares
    [ns] again. *)
Lemma shadowed_name_not_validated_sample :
  Sample.namespaces !! "ns" = Some Sample.names
  /\ Sample.shadowed "ns" <> Some "module"
  /\ namespaceRule.MemberExpression false Sample.shadowed Sample.namespaces
       (MemberExpression (Identifier "ns") (Static "missing")) [ExpressionOf] = []
  /\ namespaceRule.VariableDeclarator Sample.shadowed Sample.namespaces
       (ObjectPattern [Property (Identifier "missing") (Identifier "missing")])
       (Some (Identifier "ns"))
     = (namespaceRule.Normal, []).
Proof.
  assert (Hscope : Sample.shadowed "ns" <> Some "module") by discriminate.
  do 2 (split; [done|]).
  destruct (shadowed_name_not_validated false Sample.shadowed Sample.namespaces
              "ns" Sample.names eq_refl Hscope) as [Hmember Hdeclarator].
  split; [exact (Hmember _ _)|exact (Hdeclarator _)].
Defined.

(** [<ns.Missing />] where a function declares [ns] again. *)
Lemma JSX_member_reported_when_shadowed_sample :
  Sample.namespaces !! "ns" = Some Sample.names
  /\ has Sample.names "Missing" = false
  /\ Sample.shadowed "ns" <> Some "module"
  /\ namespaceRule.JSXMemberExpression Sample.namespaces (JSXIdentifier "ns") "Missing"
     = [Report (JSXIdentifier "Missing")
          "'Missing' not found in imported namespace 'ns'."]
  /\ namespaceRule.MemberExpression false Sample.shadowed Sample.namespaces
       (MemberExpression (Identifier "ns") (Static "Missing")) [ExpressionOf] = [].
Proof.
  assert (Hscope : Sample.shadowed "ns" <> Some "module") by discriminate.
  do 3 (split; [done|]).
  destruct (JSX_member_reported_when_shadowed false Sample.shadowed
              Sample.namespaces "ns" "Missing" Sample.names eq_refl eq_refl Hscope)
    as (Hjsx & Hmember & _).
  split; [exact Hjsx|exact (Hmember _)].
Defined.

(** [import * as ns from './broken'] *)
Lemma errors_forwarded_and_nothing_bound_sample :
  [ImportNamespaceSpecifier "ns"] <> []
  /\ Sample.Exports_get "./broken" = Some Sample.broken
  /\ errors Sample.broken <> []
  /\ namespaceRule.processBodyStatement Sample.Exports_get ∅
       (ImportDeclaration [ImportNamespaceSpecifier "ns"] "./broken")
     = (∅,
        [Report (ImportDeclaration [ImportNamespaceSpecifier "ns"] "./broken")
           "Parse errors in imported module './broken'"]).
Proof.
  assert (Hspecifiers : [ImportNamespaceSpecifier "ns"] <> []) by discriminate.
  assert (Herrors : errors Sample.broken <> []) by discriminate.
  do 3 (split; [done|]).
  exact (proj1 (errors_forwarded_and_nothing_bound Sample.Exports_get ∅
                  [ImportNamespaceSpecifier "ns"] "./broken" Sample.broken
                  Hspecifiers eq_refl Herrors)).
Defined.

(** C2 as stated fails on [import './broken']: the source resolves to an
    export map with an error, whose hook would report on the declaration,
    and the visitor reports nothing, because it returns on a declaration
    without specifiers before it resolves the source. *)
Lemma errors_not_forwarded_without_specifiers :
  Sample.Exports_get "./broken" = Some Sample.broken
  /\ errors Sample.broken = ["Unexpected token"]
  /\ reportErrors Sample.broken (ImportDeclaration [] "./broken")
     = [Report (ImportDeclaration [] "./broken")
          "Parse errors in imported module './broken'"]
  /\ namespaceRule.processBodyStatement Sample.Exports_get ∅
       (ImportDeclaration [] "./broken")
     = (∅, []).
Proof. repeat split; reflexivity. Qed.

(** ** More on the table of bindings *)

Section table.

Variable Exports_get : string -> option ExportMap.

Lemma forEach_cons_table
    (f : gmap string ExportMap -> Node -> gmap string ExportMap * list Diagnostic)
    (namespaces : gmap string ExportMap) (x : Node) (l : list Node) :
  (namespaceRule.forEach f namespaces (x :: l)).1
  = (namespaceRule.forEach f (f namespaces x).1 l).1.
Proof.
  cbn. destruct (f namespaces x) as [namespaces1 reports1]. cbn.
  by destruct (namespaceRule.forEach f namespaces1 l).
Qed.

Lemma forEach_cons_reports
    (f : gmap string ExportMap -> Node -> gmap string ExportMap * list Diagnostic)
    (namespaces : gmap string ExportMap) (x : Node) (l : list Node) :
  (namespaceRule.forEach f namespaces (x :: l)).2
  = (f namespaces x).2 ++ (namespaceRule.forEach f (f namespaces x).1 l).2.
Proof.
  cbn. destruct (f namespaces x) as [namespaces1 reports1]. cbn.
  by destruct (namespaceRule.forEach f namespaces1 l).
Qed.

(** A loop whose steps leave the entry of [local] alone leaves it alone. *)
Lemma forEach_other
    (f : gmap string ExportMap -> Node -> gmap string ExportMap * list Diagnostic)
    (local : string) (l : list Node) :
  (forall namespaces x, x ∈ l -> (f namespaces x).1 !! local = namespaces !! local) ->
  forall namespaces,
    (namespaceRule.forEach f namespaces l).1 !! local = namespaces !! local.
Proof.
  induction l as [|x l IH]; intros Hstep namespaces; [done|].
  rewrite forEach_cons_table, IH.
  - apply Hstep, list_elem_of_here.
  - intros table y Hy. apply Hstep. by apply list_elem_of_further.
Qed.

(** A specifier writes under its own local name only. *)
Lemma processSpecifier_other (imports : ExportMap) (source : string)
    (namespaces : gmap string ExportMap) (specifier : Node) (local : string) :
  localOf specifier <> Some local ->
  (namespaceRule.processSpecifier imports source namespaces specifier).1 !! local
  = namespaces !! local.
Proof.
  intros Hother.
  destruct (processSpecifier_table imports source namespaces specifier)
    as [->|(local' & namespace & Hbinds & ->)]; [done|].
  apply lookup_insert_ne. intros ->. apply Hother. by destruct Hbinds.
Qed.

Lemma specifiers_other (imports : ExportMap) (source : string)
    (specifiers : list Node) (local : string) :
  local ∉ omap localOf specifiers ->
  forall namespaces,
    (namespaceRule.forEach (namespaceRule.processSpecifier imports source)
       namespaces specifiers).1 !! local = namespaces !! local.
Proof.
  intros Hfresh. apply forEach_other. intros table specifier Hin.
  apply processSpecifier_other. intros Hlocal. apply Hfresh.
  apply list_elem_of_omap. by exists specifier.
Qed.

(** A statement writes under the local names it declares only. *)
Lemma processBodyStatement_other (namespaces : gmap string ExportMap)
    (statement : Node) (local : string) :
  local ∉ declaredLocals statement ->
  (namespaceRule.processBodyStatement Exports_get namespaces statement).1 !! local
  = namespaces !! local.
Proof.
  intros Hfresh.
  destruct statement
    as [| | | | | | | | | | | | | |specifiers source| | |]; try done.
  cbn. destruct (Nat.eqb (length specifiers) 0); [done|].
  destruct (Exports_get source) as [imports|]; [|done].
  destruct (errors imports); [|done]. cbn.
  by apply specifiers_other.
Qed.

Lemma body_other (body : list Node) (local : string) :
  local ∉ locals body ->
  forall namespaces,
    (namespaceRule.forEach (namespaceRule.processBodyStatement Exports_get)
       namespaces body).1 !! local = namespaces !! local.
Proof.
  intros Hfresh. apply forEach_other. intros table statement Hin.
  apply processBodyStatement_other. intros Hlocal. apply Hfresh.
  unfold locals. apply list_elem_of_In, in_concat.
  exists (declaredLocals statement).
  split; [apply in_map|]; by apply list_elem_of_In.
Qed.

Lemma Binds_localOf (imports : ExportMap) (specifier : Node) (local : string)
    (namespace : ExportMap) :
  Binds imports specifier local namespace -> localOf specifier = Some local.
Proof. by intros []. Qed.

Lemma processSpecifier_binds (imports : ExportMap) (source : string)
    (namespaces : gmap string ExportMap) (specifier : Node) (local : string)
    (namespace : ExportMap) :
  Binds imports specifier local namespace ->
  (namespaceRule.processSpecifier imports source namespaces specifier).1 !! local
  = Some namespace.
Proof.
  intros [local'|local' namespace' Hget|imported local' namespace' Hget]; cbn.
  - apply lookup_insert_eq.
  - rewrite Hget. apply lookup_insert_eq.
  - rewrite Hget. apply lookup_insert_eq.
Qed.

(** Among specifiers with different local names, the one that binds
    [local] has the last word on it. *)
Lemma specifiers_bind (imports : ExportMap) (source : string)
    (specifiers : list Node) (specifier : Node) (local : string)
    (namespace : ExportMap) :
  NoDup (omap localOf specifiers) ->
  specifier ∈ specifiers ->
  Binds imports specifier local namespace ->
  forall namespaces,
    (namespaceRule.forEach (namespaceRule.processSpecifier imports source)
       namespaces specifiers).1 !! local = Some namespace.
Proof.
  intros Hnodup Hin Hbinds.
  pose proof (Binds_localOf _ _ _ _ Hbinds) as Hlocal.
  induction specifiers as [|first rest IH]; intros namespaces.
  { by apply elem_of_nil in Hin. }
  rewrite forEach_cons_table.
  apply elem_of_cons in Hin as [<-|Hin].
  - cbn in Hnodup. rewrite Hlocal in Hnodup. cbn in Hnodup.
    apply NoDup_cons in Hnodup as [Hfresh _].
    rewrite specifiers_other by done. by apply processSpecifier_binds.
  - apply IH; [|done]. cbn in Hnodup.
    destruct (localOf first); [|done]. by apply NoDup_cons in Hnodup as [_ ?].
Qed.

(** In a body whose local names are all different, a specifier of a
    declaration that resolved without errors has its binding in the table
    when the loop over the body is over. *)
Lemma body_binds (body : list Node) (local : string) (namespace : ExportMap) :
  NoDup (locals body) ->
  Origin Exports_get body local namespace ->
  forall namespaces,
    (namespaceRule.forEach (namespaceRule.processBodyStatement Exports_get)
       namespaces body).1 !! local = Some namespace.
Proof.
  intros Hnodup (specifiers & source & imports & specifier
                 & Hdeclaration & Hspecifier & Hget & Herrors & Hbinds).
  induction body as [|statement rest IH]; intros namespaces.
  { by apply elem_of_nil in Hdeclaration. }
  rewrite forEach_cons_table.
  unfold locals in Hnodup. cbn [map concat] in Hnodup.
  apply NoDup_app in Hnodup as (Hhere & Hapart & Hrest).
  apply elem_of_cons in Hdeclaration as [<-|Hdeclaration].
  - assert (Hlocal : local ∈ omap localOf specifiers).
    { apply list_elem_of_omap. exists specifier.
      split; [done|]. by eapply Binds_localOf. }
    rewrite body_other by (apply Hapart; exact Hlocal).
    cbn. destruct specifiers as [|first more].
    { by apply elem_of_nil in Hspecifier. }
    cbn [length Nat.eqb]. rewrite Hget, Herrors. cbn [length Nat.ltb Nat.leb].
    by apply (specifiers_bind imports source (first :: more) specifier).
  - by apply IH.
Qed.

(** X1. In a body whose import declarations declare local names that are
    all different, as in every module that parses, the table [Program]
    builds holds exactly the bindings of the specifiers of the
    declarations that resolved without errors: [local] is set to
    [namespace] if and only if some such specifier binds it so, wherever
    the declaration stands in the body. *)
Theorem Program_table_exact (body : list Node) (local : string)
    (namespace : ExportMap) :
  NoDup (locals body) ->
  (namespaceRule.Program Exports_get body).1 !! local = Some namespace
  <-> Origin Exports_get body local namespace.
Proof.
  intros Hnodup. split.
  - apply Program_origin.
  - intros Horigin. by apply body_binds.
Qed.

(** The reports of a specifier: one on a namespace specifier of a module
    without exports, none otherwise, whatever the table holds. *)
Lemma processSpecifier_reports (imports : ExportMap) (source : string)
    (namespaces : gmap string ExportMap) (specifier : Node) :
  (namespaceRule.processSpecifier imports source namespaces specifier).2
  = if isNamespaceSpecifier specifier && Nat.eqb (size imports) 0
    then [Report specifier ("No exported names found in module '" +:+ source +:+ "'.")]
    else [].
Proof.
  destruct specifier as [| | | | | | | | | | |local|local|imported local| | | |];
    try done; cbn.
  - by destruct (get imports "default") as [| |[?|]].
  - by destruct (get imports (namespaceRule.importedName imported)) as [| |[?|]].
Qed.

Lemma specifiers_reports (imports : ExportMap) (source : string)
    (specifiers : list Node) :
  forall namespaces,
    (namespaceRule.forEach (namespaceRule.processSpecifier imports source)
       namespaces specifiers).2
    = if Nat.eqb (size imports) 0
      then map (fun specifier =>
                  Report specifier
                    ("No exported names found in module '" +:+ source +:+ "'."))
             (List.filter isNamespaceSpecifier specifiers)
      else [].
Proof.
  induction specifiers as [|specifier rest IH]; intros namespaces.
  { by destruct (Nat.eqb (size imports) 0). }
  rewrite forEach_cons_reports, IH, processSpecifier_reports. cbn [List.filter].
  destruct (isNamespaceSpecifier specifier), (Nat.eqb (size imports) 0); done.
Qed.

(** X2. An import declaration whose source resolved without errors gets
    one report per namespace specifier, on that specifier and in source
    order, when the export map has size zero, and no report at all when it
    has exports: default and named specifiers never report, found or
    not. *)
Theorem declaration_reports_per_namespace_specifier
    (namespaces : gmap string ExportMap) (specifiers : list Node)
    (source : string) (imports : ExportMap) :
  Exports_get source = Some imports ->
  errors imports = [] ->
  (namespaceRule.processBodyStatement Exports_get namespaces
     (ImportDeclaration specifiers source)).2
  = if Nat.eqb (size imports) 0
    then map (fun specifier =>
                Report specifier
                  ("No exported names found in module '" +:+ source +:+ "'."))
           (List.filter isNamespaceSpecifier specifiers)
    else [].
Proof.
  intros Hget Herrors. cbn. rewrite Hget, Herrors. cbn [length Nat.ltb Nat.leb].
  destruct specifiers as [|specifier rest].
  - by destruct (Nat.eqb (size imports) 0).
  - cbn [length Nat.eqb]. apply specifiers_reports.
Qed.

Lemma processBodyStatement_reports (namespaces : gmap string ExportMap)
    (statement : Node) :
  (namespaceRule.processBodyStatement Exports_get namespaces statement).2
  = (namespaceRule.processBodyStatement Exports_get ∅ statement).2.
Proof.
  destruct statement
    as [| | | | | | | | | | | | | |specifiers source| | |]; try done.
  cbn. destruct (Nat.eqb (length specifiers) 0); [done|].
  destruct (Exports_get source) as [imports|]; [|done].
  destruct (errors imports); [|done]. cbn.
  by rewrite !specifiers_reports.
Qed.

(** X3. What [Program] reports is the reports of its statements one after
    the other, each as if it stood alone in the file: the report of an
    import declaration does not depend on the declarations before it. *)
Theorem Program_reports_statementwise (body : list Node) :
  (namespaceRule.Program Exports_get body).2
  = concat (map (fun statement =>
                   (namespaceRule.processBodyStatement Exports_get ∅ statement).2)
              body).
Proof.
  unfold namespaceRule.Program. generalize (∅ : gmap string ExportMap) at 1.
  induction body as [|statement rest IH]; intros namespaces; [done|].
  rewrite forEach_cons_reports, IH. cbn [map concat].
  by rewrite processBodyStatement_reports.
Qed.

End table.

(** ** More on member expressions *)

Section more_member_expressions.

Variable declaredScope : string -> option string.
Variable namespaces : gmap string ExportMap.

(** The loop ends with its first report. *)
Lemma walk_at_most_one (allowComputed : bool) (parents : list Parent) :
  forall (namespace : option ExportMap) (dereference : Node)
         (namepath : list string),
    length (namespaceRule.walk allowComputed namespace dereference parents namepath)
    <= 1.
Proof.
  induction parents as [|parent above IH];
    intros [exports|] dereference namepath;
    destruct dereference as [| |object [propertyName|expression]| | | | | | | | | | | | | | |];
    cbn; try lia.
  all: try (destruct allowComputed; cbn; lia).
  all: destruct (has exports propertyName); cbn; try lia.
  all: destruct (get exports propertyName); cbn; try lia.
  apply IH.
Qed.

(** X4. One visit of a member expression reports at most twice: at most
    once for an assignment and at most once from the loop, which ends
    with its first report however long the chain is. *)
Theorem MemberExpression_at_most_two_reports (allowComputed : bool)
    (dereference : Node) (parents : list Parent) :
  length (namespaceRule.MemberExpression allowComputed declaredScope namespaces
            dereference parents) <= 2
  /\ forall (namespace : option ExportMap) (node : Node) (above : list Parent)
            (namepath : list string),
       length (namespaceRule.walk allowComputed namespace node above namepath) <= 1.
Proof.
  split; [|intros; apply walk_at_most_one].
  unfold namespaceRule.MemberExpression.
  destruct dereference as [| |[objectName| | | | | | | | | | | | | | | | |] property| | | | | | | | | | | | | | |];
    cbn [length]; try lia.
  destruct (namespaces !! objectName); cbn [length]; [|lia].
  case_bool_decide; cbn [length]; [|lia].
  rewrite length_app.
  pose proof (walk_at_most_one allowComputed parents (Some e)
                (MemberExpression (Identifier objectName) property) [objectName]).
  assert (length (namespaceRule.reportAssignment objectName
                    (MemberExpression (Identifier objectName) property) parents) <= 1).
  { destruct parents as [|parent above]; cbn; [lia|].
    destruct (isAssignmentTarget parent); cbn; lia. }
  lia.
Qed.

(** With [allowComputed] the loop reports what it reports without it,
    but for the report on a computed access. *)
Lemma walk_allowComputed (parents : list Parent) :
  forall (namespace : option ExportMap) (dereference : Node)
         (namepath : list string),
    namespaceRule.walk false namespace dereference parents namepath
    = namespaceRule.walk true namespace dereference parents namepath
    \/ (namespaceRule.walk true namespace dereference parents namepath = []
        /\ exists expression object,
             namespaceRule.walk false namespace dereference parents namepath
             = [Report expression
                  ("Unable to validate computed reference to imported namespace '"
                     +:+ nameText object +:+ "'.")]).
Proof.
  induction parents as [|parent above IH];
    intros [exports|] dereference namepath;
    destruct dereference as [| |object [propertyName|expression]| | | | | | | | | | | | | | |];
    cbn; try (by left).
  all: try (right; split; [done|]; by exists expression, object).
  all: destruct (has exports propertyName); cbn; try (by left).
  all: destruct (get exports propertyName); cbn; try (by left).
  apply IH.
Qed.

(** X5. The option [allowComputed] only takes a report away: the reports
    of a visit without the option are the reports with it, followed by
    nothing or by the one report that a computed reference cannot be
    validated. *)
Theorem allowComputed_only_removes_computed_report (dereference : Node)
    (parents : list Parent) :
  exists extra : list Diagnostic,
    namespaceRule.MemberExpression false declaredScope namespaces dereference parents
    = namespaceRule.MemberExpression true declaredScope namespaces dereference parents
      ++ extra
    /\ (extra = []
        \/ exists expression object,
             extra = [Report expression
                        ("Unable to validate computed reference to imported namespace '"
                           +:+ nameText object +:+ "'.")]).
Proof.
  unfold namespaceRule.MemberExpression.
  destruct dereference as [| |[objectName| | | | | | | | | | | | | | | | |] property| | | | | | | | | | | | | | |];
    try (exists []; split; [done|by left]).
  destruct (namespaces !! objectName) as [exports|];
    [|exists []; split; [done|by left]].
  case_bool_decide; [|exists []; split; [done|by left]].
  destruct (walk_allowComputed parents (Some exports)
              (MemberExpression (Identifier objectName) property) [objectName])
    as [->|(-> & expression & object & ->)].
  - exists []. split; [by rewrite app_nil_r|by left].
  - exists [Report expression
              ("Unable to validate computed reference to imported namespace '"
                 +:+ nameText object +:+ "'.")].
    split; [by rewrite app_nil_r|]. right. by exists expression, object.
Qed.


(** X7. An assignment to a member of a nested namespace is not reported
    as an assignment: the visit that checks for one is that of the
    innermost member expression, whose parent is then the next access and
    not the assignment.  So [root.a. ... .last = v] with two names or
    more, all there as in X6, gets no report at all. *)
Theorem nested_assignment_not_reported (allowComputed : bool) (root : string)
    (exports current : ExportMap) (resolved : list string) (last : string)
    (first : MemberProperty) (more : list MemberProperty) (v : Node)
    (above : list Parent) :
  namespaces !! root = Some exports ->
  declaredScope root = Some "module" ->
  resolved <> [] ->
  Chain.descend exports resolved = Some current ->
  has current last = true ->
  map Static resolved ++ [Static last] = first :: more ->
  namespaceRule.MemberExpression allowComputed declaredScope namespaces
    (MemberExpression (Identifier root) first)
    (Chain.parents more (LeftOf v :: above))
  = [].
Proof.
  intros Hbound Hscope Hnested Hdescend Hhas Hchain.
  rewrite (MemberExpression_descend allowComputed declaredScope namespaces root
             exports current resolved (Static last) first more (LeftOf v :: above))
    by done.
  destruct resolved as [|name rest]; [done|].
  cbn in Hchain. simplify_eq.
  destruct (map Static rest ++ [Static last]) as [|hop hops] eqn:Hmore.
  { by destruct rest. }
  cbn [Chain.parents map app namespaceRule.reportAssignment isAssignmentTarget].
  cbn [namespaceRule.walk]. rewrite Hhas. cbn [negb].
  destruct (get current last) as [| |[inner|]]; try done; by destruct above.
Qed.

End more_member_expressions.

(** ** More on destructuring *)

Section more_destructuring.

Variable declaredScope : string -> option string.
Variable namespaces : gmap string ExportMap.

(** A value that is no object pattern is not looked into. *)
Lemma testKey_Identifier (local : string) (namespace : option ExportMap)
    (path : list string) :
  namespaceRule.testKey (Identifier local) namespace path
  = (namespaceRule.Normal, path, []).
Proof. by destruct namespace. Qed.

Lemma forOf_flat (exports : ExportMap) (entries : list (string * string)) :
  (forall key, has exports key = true -> get exports key <> undefined) ->
  forall path : list string,
    namespaceRule.forOf exports (map flatProperty entries) path
    = (namespaceRule.Normal, path,
       map (fun entry =>
              Report (flatProperty entry)
                (namespaceRule.makeMessage (Identifier entry.1) path))
         (List.filter (fun entry => negb (has exports entry.1)) entries)).
Proof.
  intros Hanswers. induction entries as [|[key local] rest IH]; intros path; [done|].
  cbn [map flatProperty namespaceRule.forOf List.filter fst snd].
  destruct (has exports key) eqn:Hhas; cbn [negb].
  - specialize (Hanswers key Hhas).
    destruct (get exports key) as [| |dependencyNamespace]; [done| |].
    + by rewrite removelast_last, IH.
    + by rewrite testKey_Identifier, removelast_last, IH.
  - by rewrite IH.
Qed.

(** X8. The keys of a pattern are checked one by one: for a pattern
    [{ key1: local1, key2: local2, ... }] bound from a namespace
    identifier that passes the scope check, the visit returns and reports
    exactly the keys the namespace does not have, once each, on their
    property, in source order and all with the path of the identifier
    alone; a key that is there is not reported, whatever it exports. *)
Theorem flat_pattern_reports_missing_keys (ns : string) (exports : ExportMap)
    (entries : list (string * string)) :
  namespaces !! ns = Some exports ->
  declaredScope ns = Some "module" ->
  (forall key, has exports key = true -> get exports key <> undefined) ->
  namespaceRule.VariableDeclarator declaredScope namespaces
    (flatPattern entries) (Some (Identifier ns))
  = (namespaceRule.Normal,
     map (fun entry =>
            Report (flatProperty entry)
              (namespaceRule.makeMessage (Identifier entry.1) [ns]))
       (List.filter (fun entry => negb (has exports entry.1)) entries)).
Proof.
  intros Hbound Hscope Hanswers.
  unfold namespaceRule.VariableDeclarator, flatPattern.
  rewrite Hbound, Hscope, bool_decide_eq_true_2 by done.
  by rewrite testKey_ObjectPattern, forOf_flat.
Qed.

(** X9. Rest elements take no part in the validation: a pattern is
    validated as the pattern without its rest elements is, with the same
    completion, path and reports. *)
Theorem rest_elements_skipped (exports : ExportMap) (properties : list Node) :
  forall path : list string,
    namespaceRule.forOf exports properties path
    = namespaceRule.forOf exports
        (List.filter (fun property => negb (isRest property)) properties) path.
Proof.
  induction properties as [|property rest IH]; intros path; [done|].
  destruct property as [| | | | | | | |key value| | | | | | | | |];
    cbn [List.filter isRest negb namespaceRule.forOf]; try apply IH.
  destruct key as [keyName| | | | | | | | | | | | | | | | |];
    try (by rewrite IH).
  destruct (negb (has exports keyName)); [by rewrite IH|].
  destruct (get exports keyName) as [| |dependencyNamespace]; [done|apply IH|].
  destruct (namespaceRule.testKey value dependencyNamespace (path ++ [keyName]))
    as [[[|] path1] reports1]; [|done].
  by rewrite IH.
Qed.

(** The walk through a pattern returns under an export map that answers
    for what it has. *)
Lemma testKey_returns :
  forall (pattern : Node) (namespace : option ExportMap) (path : list string),
    from_option Answers True namespace ->
    (namespaceRule.testKey pattern namespace path).1.1 = namespaceRule.Normal.
Proof.
  fix IH 1. intros pattern [exports|] path Hanswers; [|by destruct pattern].
  destruct pattern as [| | | | |properties| | | | | | | | | | | |]; try done.
  rewrite testKey_ObjectPattern. cbn in Hanswers.
  destruct Hanswers as [exports Hhas Hinner]. revert path.
  induction properties as [|property rest IHrest]; intros path; [done|].
  destruct property as [| | | | | | | |key value| | | | | | | | |];
    try exact (IHrest path).
  cbn [namespaceRule.forOf].
  assert (Hskip : forall report : Diagnostic,
    (let '(completion, path1, reports) := namespaceRule.forOf exports rest path in
     (completion, path1, report :: reports)).1.1 = namespaceRule.Normal).
  { intros report. specialize (IHrest path).
    by destruct (namespaceRule.forOf exports rest path) as [[? ?] ?]. }
  destruct key as [keyName| | | | | | | | | | | | | | | | |];
    try exact (Hskip _).
  destruct (has exports keyName) eqn:Hkey; cbn [negb]; [|exact (Hskip _)].
  specialize (Hhas keyName Hkey).
  destruct (get exports keyName) as [| |dependencyNamespace] eqn:Hget; [done| |].
  - exact (IHrest _).
  - assert (Hdependency : from_option Answers True dependencyNamespace).
    { destruct dependencyNamespace as [inner|]; [|done]. exact (Hinner _ _ Hget). }
    specialize (IH value dependencyNamespace (path ++ [keyName]) Hdependency).
    destruct (namespaceRule.testKey value dependencyNamespace (path ++ [keyName]))
      as [[[|] path1] reports1]; [|done].
    specialize (IHrest (removelast path1)).
    by destruct (namespaceRule.forOf exports rest (removelast path1)) as [[? ?] ?].
Qed.

(** X11. The variable declarator visitor returns, and does not throw, on
    every declarator, when the export maps of the table answer for what
    they have: [get] never answers [undefined] for a name that [has]
    holds of, there and in the namespaces reached. *)
Theorem VariableDeclarator_returns (id : Node) (init : option Node) :
  (forall x exports, namespaces !! x = Some exports -> Answers exports) ->
  (namespaceRule.VariableDeclarator declaredScope namespaces id init).1
  = namespaceRule.Normal.
Proof.
  intros Hanswers. unfold namespaceRule.VariableDeclarator.
  destruct init as [[initName| | | | | | | | | | | | | | | | |]|]; try done.
  destruct (namespaces !! initName) as [exports|] eqn:Hbound; [|done].
  case_bool_decide; [|done].
  pose proof (testKey_returns id (Some exports) [initName]
                (Hanswers _ _ Hbound)) as Hreturns.
  by destruct (namespaceRule.testKey id (Some exports) [initName]) as [[? ?] ?].
Qed.

(** X12. A name that is present while [get] answers [undefined] is taken
    differently by the two visitors: destructuring it makes the variable
    declarator visitor throw, before it looks at the properties that
    follow; accessing it makes the member expression visitor stop without
    a report. *)
Theorem undefined_export_throws_in_destructuring_only (allowComputed : bool)
    (ns key : string) (exports : ExportMap) (value : Node) (rest : list Node)
    (parents : list Parent) :
  namespaces !! ns = Some exports ->
  declaredScope ns = Some "module" ->
  has exports key = true ->
  get exports key = undefined ->
  namespaceRule.VariableDeclarator declaredScope namespaces
    (ObjectPattern (Property (Identifier key) value :: rest))
    (Some (Identifier ns))
  = (namespaceRule.TypeError, [])
  /\ namespaceRule.MemberExpression allowComputed declaredScope namespaces
       (MemberExpression (Identifier ns) (Static key)) parents
     = namespaceRule.reportAssignment ns
         (MemberExpression (Identifier ns) (Static key)) parents.
Proof.
  intros Hbound Hscope Hhas Hget. split.
  - unfold namespaceRule.VariableDeclarator.
    rewrite Hbound, Hscope, bool_decide_eq_true_2 by done.
    by rewrite testKey_ObjectPattern, forOf_undefined_throws.
  - unfold namespaceRule.MemberExpression.
    rewrite Hbound, Hscope, bool_decide_eq_true_2 by done.
    destruct parents; cbn [namespaceRule.walk]; rewrite Hhas, Hget;
      apply app_nil_r.
Qed.

End more_destructuring.

(** ** More on the other visitors *)

Section other_visitors.

Variable Exports_get : string -> option ExportMap.
Variable declaredScope : string -> option string.

(** X13. On a tag [Ns.Member] the JSX visitor reports the text that the
    member expression visitor reports on the expression [Ns.Member;]
    where [Ns] is in the module scope: nothing for a name that is there or
    an identifier that is not in the table, the name not found otherwise.
    And it validates the first access only: on a tag [A.B.C] the visit of
    the outer member expression, whose object is [A.B], reports nothing. *)
Theorem JSX_reports_as_member_expression (allowComputed : bool)
    (namespaces : gmap string ExportMap) (Ns Member : string) :
  declaredScope Ns = Some "module" ->
  map message
    (namespaceRule.JSXMemberExpression namespaces (JSXIdentifier Ns) Member)
  = map message
      (namespaceRule.MemberExpression allowComputed declaredScope namespaces
         (MemberExpression (Identifier Ns) (Static Member)) [ExpressionOf])
  /\ forall (object : Node) (inner outer : string),
       namespaceRule.JSXMemberExpression namespaces
         (JSXMemberExpression object inner) outer = [].
Proof.
  intros Hscope. split; [|done].
  unfold namespaceRule.JSXMemberExpression, namespaceRule.MemberExpression.
  cbn [name]. destruct (namespaces !! Ns) as [exports|]; [|done].
  rewrite Hscope, bool_decide_eq_true_2 by done.
  cbn [namespaceRule.reportAssignment isAssignmentTarget app namespaceRule.walk].
  destruct (has exports Member); cbn [negb]; [|done].
  by destruct (get exports Member) as [| |[inner|]].
Qed.

(** X14. The export namespace specifier visitor does for
    [export * as X from 'mod'] what the import of [* as X] from the same
    module does, but for the table, which it does not touch: where the
    export map has errors it reports what the error hook reports on the
    declaration, and nothing about missing exports even when the size is
    zero; where it has none, it reports as the import does, on its own
    node. *)
Theorem export_namespace_reports_as_import (namespace declaration : Node)
    (source local : string) (namespaces : gmap string ExportMap) :
  (forall imports, Exports_get source = Some imports -> errors imports <> [] ->
     namespaceRule.ExportNamespaceSpecifier Exports_get namespace declaration source
     = reportErrors imports declaration)
  /\ ((forall imports, Exports_get source = Some imports -> errors imports = []) ->
      namespaceRule.ExportNamespaceSpecifier Exports_get namespace declaration source
      = map (fun report => Report namespace (message report))
          (namespaceRule.processBodyStatement Exports_get namespaces
             (ImportDeclaration [ImportNamespaceSpecifier local] source)).2).
Proof.
  unfold namespaceRule.ExportNamespaceSpecifier. split.
  - intros imports -> Herrors. by destruct (errors imports).
  - intros Hnone. cbn.
    destruct (Exports_get source) as [imports|]; [|done].
    rewrite (Hnone imports eq_refl). cbn.
    by destruct (Nat.eqb (size imports) 0).
Qed.

(** X15. Imports are hoisted: in a body whose local names are all
    different, a name bound by a specifier of an import declaration that
    resolved without errors is validated against its namespace wherever
    the declaration stands, before or after the access.  So an access to a
    name its namespace does not have is reported as not found. *)
Theorem hoisted_import_validated (allowComputed : bool) (body : list Node)
    (ns x : string) (namespace : ExportMap) (parents : list Parent) :
  NoDup (locals body) ->
  Origin Exports_get body ns namespace ->
  declaredScope ns = Some "module" ->
  has namespace x = false ->
  namespaceRule.MemberExpression allowComputed declaredScope
    (namespaceRule.Program Exports_get body).1
    (MemberExpression (Identifier ns) (Static x)) parents
  = namespaceRule.reportAssignment ns
      (MemberExpression (Identifier ns) (Static x)) parents
    ++ [Report (Identifier x) (namespaceRule.makeMessage (Identifier x) [ns])].
Proof.
  intros Hnodup Horigin Hscope Hmissing.
  unfold namespaceRule.MemberExpression, namespaceRule.Program.
  rewrite (body_binds Exports_get body ns namespace Hnodup Horigin).
  rewrite Hscope, bool_decide_eq_true_2 by done.
  destruct parents; cbn [namespaceRule.walk]; by rewrite Hmissing.
Qed.

End other_visitors.

(** ** The further properties at sample inputs *)

(** An export map given by entries that are not [undefined], and whose
    namespaces answer, answers for what it has. *)
Lemma exportsOf_answers (entries : list (string * Exported)) :
  Forall (fun entry =>
            entry.2 <> undefined
            /\ forall inner, entry.2 = Meta (Some inner) -> Answers inner)
    entries ->
  Answers (Sample.exportsOf entries).
Proof.
  intros Hentries.
  assert (Hlookup : forall x exported,
            Sample.lookup entries x = Some exported ->
            exported <> undefined
            /\ forall inner, exported = Meta (Some inner) -> Answers inner).
  { intros x exported. unfold Sample.lookup.
    destruct (find _ entries) as [entry|] eqn:Hfind; [|done].
    intros [= <-]. apply find_some in Hfind as [Hin _].
    apply list_elem_of_In in Hin.
    by apply (proj1 (Forall_forall _ _) Hentries). }
  constructor; cbn.
  - intros x Hhas. apply bool_decide_eq_true in Hhas as [exported Hx].
    rewrite Hx. cbn. by apply (Hlookup x).
  - intros x inner Hget.
    destruct (Sample.lookup entries x) as [exported|] eqn:Hx; [|done].
    cbn in Hget. subst exported. by apply (Hlookup x _ Hx).
Qed.

Lemma deep_answers : Answers Sample.deep.
Proof.
  apply exportsOf_answers, Forall_cons. split; [|by apply Forall_nil].
  split; [discriminate|]. cbn. intros inner Hnone. discriminate Hnone.
Qed.

Lemma inner_answers : Answers Sample.inner.
Proof.
  apply exportsOf_answers, Forall_cons. split; [|by apply Forall_nil].
  split; [discriminate|]. cbn. intros inner [= <-]. exact deep_answers.
Qed.

Lemma names_answer : Answers Sample.names.
Proof.
  apply exportsOf_answers.
  apply Forall_cons. split.
  { split; [discriminate|]. cbn. intros inner [= <-]. exact inner_answers. }
  apply Forall_cons. split.
  { split; [discriminate|]. cbn. intros inner Hnone. discriminate Hnone. }
  apply Forall_cons. split; [|by apply Forall_nil].
  split; [discriminate|]. cbn. intros inner Hnone. discriminate Hnone.
Qed.

Lemma body_locals_differ : NoDup (locals Sample.body).
Proof. by apply (bool_decide_unpack _). Qed.

Lemma body_binds_inner :
  Origin Sample.Exports_get Sample.body "inner" Sample.inner.
Proof.
  exists [ImportSpecifier (ExportIdentifier "a") "inner"], "./names",
    Sample.names, (ImportSpecifier (ExportIdentifier "a") "inner").
  repeat split; [set_solver|set_solver|by constructor].
Qed.

Lemma body_binds_ns :
  Origin Sample.Exports_get Sample.body "ns" Sample.names.
Proof.
  exists [ImportDefaultSpecifier "d"; ImportNamespaceSpecifier "ns"], "./names",
    Sample.names, (ImportNamespaceSpecifier "ns").
  repeat split; [set_solver|set_solver|by constructor].
Qed.

(** The table of the sample body has [inner] and [ns], by their
    specifiers. *)
Lemma Program_table_exact_sample :
  NoDup (locals Sample.body)
  /\ (namespaceRule.Program Sample.Exports_get Sample.body).1 !! "inner"
     = Some Sample.inner
  /\ (namespaceRule.Program Sample.Exports_get Sample.body).1 !! "ns"
     = Some Sample.names.
Proof.
  split; [exact body_locals_differ|]. split.
  - exact (proj2 (Program_table_exact Sample.Exports_get Sample.body "inner"
                    Sample.inner body_locals_differ) body_binds_inner).
  - exact (proj2 (Program_table_exact Sample.Exports_get Sample.body "ns"
                    Sample.names body_locals_differ) body_binds_ns).
Defined.

(** [import d, * as ns from './empty'] and [import d, * as ns from
    './names'] *)
Lemma declaration_reports_per_namespace_specifier_sample :
  Sample.Exports_get "./empty" = Some Sample.empty
  /\ errors Sample.empty = []
  /\ (namespaceRule.processBodyStatement Sample.Exports_get ∅
        (ImportDeclaration
           [ImportDefaultSpecifier "d"; ImportNamespaceSpecifier "ns"] "./empty")).2
     = [Report (ImportNamespaceSpecifier "ns")
          "No exported names found in module './empty'."]
  /\ (namespaceRule.processBodyStatement Sample.Exports_get ∅
        (ImportDeclaration
           [ImportDefaultSpecifier "d"; ImportNamespaceSpecifier "ns"] "./names")).2
     = [].
Proof.
  do 2 (split; [reflexivity|]). split.
  - exact (declaration_reports_per_namespace_specifier Sample.Exports_get ∅
             [ImportDefaultSpecifier "d"; ImportNamespaceSpecifier "ns"]
             "./empty" Sample.empty eq_refl eq_refl).
  - exact (declaration_reports_per_namespace_specifier Sample.Exports_get ∅
             [ImportDefaultSpecifier "d"; ImportNamespaceSpecifier "ns"]
             "./names" Sample.names eq_refl eq_refl).
Defined.


(** [ns.a.b = 1;] *)
Lemma nested_assignment_not_reported_sample :
  Sample.namespaces !! "ns" = Some Sample.names
  /\ Chain.descend Sample.names ["a"] = Some Sample.inner
  /\ has Sample.inner "b" = true
  /\ namespaceRule.MemberExpression false Sample.moduleScope Sample.namespaces
       (MemberExpression (Identifier "ns") (Static "a"))
       [ObjectOf (Static "b"); LeftOf (Literal "1"); ExpressionOf] = [].
Proof.
  do 3 (split; [reflexivity|]).
  assert (Hnested : ["a"] <> []) by discriminate.
  exact (nested_assignment_not_reported Sample.moduleScope Sample.namespaces false
           "ns" Sample.names Sample.inner ["a"] "b" (Static "a") [Static "b"]
           (Literal "1") [ExpressionOf]
           eq_refl eq_refl Hnested eq_refl eq_refl eq_refl).
Defined.

(** [const { a: x, gone: y, plain: plain, lost: z } = ns;] *)
Lemma flat_pattern_reports_missing_keys_sample :
  Sample.namespaces !! "ns" = Some Sample.names
  /\ namespaceRule.VariableDeclarator Sample.moduleScope Sample.namespaces
       (flatPattern [("a", "x"); ("gone", "y"); ("plain", "plain"); ("lost", "z")])
       (Some (Identifier "ns"))
     = (namespaceRule.Normal,
        [Report (Property (Identifier "gone") (Identifier "y"))
           "'gone' not found in imported namespace 'ns'.";
         Report (Property (Identifier "lost") (Identifier "z"))
           "'lost' not found in imported namespace 'ns'."]).
Proof.
  split; [reflexivity|].
  assert (Hanswers : forall key,
            has Sample.names key = true -> get Sample.names key <> undefined).
  { by destruct names_answer. }
  exact (flat_pattern_reports_missing_keys Sample.moduleScope Sample.namespaces
           "ns" Sample.names
           [("a", "x"); ("gone", "y"); ("plain", "plain"); ("lost", "z")]
           eq_refl eq_refl Hanswers).
Defined.

(** [{ a: { c }, plain }] under [ns]: the path is [ns] again when the
    walk is over. *)
Lemma testKey_path_restored_sample :
  (namespaceRule.testKey
     (ObjectPattern
        [Property (Identifier "a")
           (ObjectPattern [Property (Identifier "c") (Identifier "c")]);
         Property (Identifier "plain") (Identifier "plain")])
     (Some Sample.names) ["ns"]).1.1 = namespaceRule.Normal
  /\ (namespaceRule.testKey
        (ObjectPattern
           [Property (Identifier "a")
              (ObjectPattern [Property (Identifier "c") (Identifier "c")]);
            Property (Identifier "plain") (Identifier "plain")])
        (Some Sample.names) ["ns"]).1.2 = ["ns"].
Proof.
  split; [reflexivity|].
  exact (testKey_path_restored
           (ObjectPattern
              [Property (Identifier "a")
                 (ObjectPattern [Property (Identifier "c") (Identifier "c")]);
               Property (Identifier "plain") (Identifier "plain")])
           (Some Sample.names) ["ns"] eq_refl).
Defined.

(** [const { a: { b: { c } }, ambiguous: { x } } = ns;] *)
Lemma VariableDeclarator_returns_sample :
  (namespaceRule.VariableDeclarator Sample.moduleScope Sample.namespaces
     (ObjectPattern
        [Property (Identifier "a")
           (ObjectPattern
              [Property (Identifier "b")
                 (ObjectPattern [Property (Identifier "c") (Identifier "c")])]);
         Property (Identifier "ambiguous")
           (ObjectPattern [Property (Identifier "x") (Identifier "x")])])
     (Some (Identifier "ns"))).1
  = namespaceRule.Normal.
Proof.
  assert (Hanswers : forall x exports,
            Sample.namespaces !! x = Some exports -> Answers exports).
  { intros x exports Hbound. unfold Sample.namespaces in Hbound.
    apply lookup_singleton_Some in Hbound as [_ <-]. exact names_answer. }
  exact (VariableDeclarator_returns Sample.moduleScope Sample.namespaces _ _ Hanswers).
Defined.

(** [const { self, other } = cyc;] and [cyc.self;] *)
Lemma undefined_export_throws_in_destructuring_only_sample :
  Sample.withCyclic !! "cyc" = Some Sample.cyclic
  /\ has Sample.cyclic "self" = true
  /\ get Sample.cyclic "self" = undefined
  /\ namespaceRule.VariableDeclarator Sample.moduleScope Sample.withCyclic
       (ObjectPattern
          [Property (Identifier "self") (Identifier "self");
           Property (Identifier "other") (Identifier "other")])
       (Some (Identifier "cyc"))
     = (namespaceRule.TypeError, [])
  /\ namespaceRule.MemberExpression false Sample.moduleScope Sample.withCyclic
       (MemberExpression (Identifier "cyc") (Static "self")) [ExpressionOf]
     = [].
Proof.
  do 3 (split; [reflexivity|]).
  exact (undefined_export_throws_in_destructuring_only Sample.moduleScope
           Sample.withCyclic false "cyc" "self" Sample.cyclic (Identifier "self")
           [Property (Identifier "other") (Identifier "other")] [ExpressionOf]
           eq_refl eq_refl eq_refl eq_refl).
Defined.

(** [<ns.Missing />] and [ns.Missing;] *)
Lemma JSX_reports_as_member_expression_sample :
  Sample.moduleScope "ns" = Some "module"
  /\ map message
       (namespaceRule.JSXMemberExpression Sample.namespaces (JSXIdentifier "ns")
          "Missing")
     = ["'Missing' not found in imported namespace 'ns'."]
  /\ map message
       (namespaceRule.MemberExpression false Sample.moduleScope Sample.namespaces
          (MemberExpression (Identifier "ns") (Static "Missing")) [ExpressionOf])
     = ["'Missing' not found in imported namespace 'ns'."].
Proof.
  split; [reflexivity|]. split; [reflexivity|].
  exact (eq_trans
           (eq_sym (proj1 (JSX_reports_as_member_expression Sample.moduleScope
                             false Sample.namespaces "ns" "Missing" eq_refl)))
           eq_refl).
Defined.

(** [export * as none from './empty'] and [export * as bad from
    './broken'], the declaration standing for itself. *)
Lemma export_namespace_reports_as_import_sample :
  namespaceRule.ExportNamespaceSpecifier Sample.Exports_get
    (Identifier "none") (Literal "export * as none from './empty'") "./empty"
  = [Report (Identifier "none") "No exported names found in module './empty'."]
  /\ namespaceRule.ExportNamespaceSpecifier Sample.Exports_get
       (Identifier "bad") (Literal "export * as bad from './broken'") "./broken"
     = [Report (Literal "export * as bad from './broken'")
          "Parse errors in imported module './broken'"].
Proof.
  split.
  - assert (Hnone : forall imports,
              Sample.Exports_get "./empty" = Some imports -> errors imports = []).
    { by intros imports [= <-]. }
    exact (proj2 (export_namespace_reports_as_import Sample.Exports_get
                    (Identifier "none") (Literal "export * as none from './empty'")
                    "./empty" "none" ∅) Hnone).
  - assert (Herrors : errors Sample.broken <> []) by discriminate.
    exact (proj1 (export_namespace_reports_as_import Sample.Exports_get
                    (Identifier "bad") (Literal "export * as bad from './broken'")
                    "./broken" "bad" ∅) Sample.broken eq_refl Herrors).
Defined.

(** [ns.missing;] before [import d, * as ns from './names'] in the sample
    body. *)
Lemma hoisted_import_validated_sample :
  NoDup (locals Sample.body)
  /\ has Sample.names "missing" = false
  /\ namespaceRule.MemberExpression false Sample.moduleScope
       (namespaceRule.Program Sample.Exports_get Sample.body).1
       (MemberExpression (Identifier "ns") (Static "missing")) [ExpressionOf]
     = [Report (Identifier "missing")
          "'missing' not found in imported namespace 'ns'."].
Proof.
  split; [exact body_locals_differ|]. split; [reflexivity|].
  exact (hoisted_import_validated Sample.Exports_get Sample.moduleScope false
           Sample.body "ns" "missing" Sample.names [ExpressionOf]
           body_locals_differ body_binds_ns eq_refl eq_refl).
Defined.
